(** * Bank of Joe: the account ledger and the bank registry

    A shallow embedding of [bank_of_joe.py] (classes [Account] and [Bank],
    the screens and the menu) and the properties of its specification.

    Modelling decisions, all visible in the definitions below:

    - Money and rates.  The Python fields are [float], that is binary64;
      they are embedded as Rocq's primitive floats, which are binary64
      too, with the same rounding of [+], [-], [*] and [/], the same
      infinities and NaN.  A Python comparison is the boolean comparison
      of floats ([<=?], [<?], [=?]), false whenever a side is NaN, and a
      statement about one is an equation of it with [true] or [false].
    - Integers are [Z]: account numbers and day ordinals.
    - Strings that the code trims or compares (owners, lines entered) are
      sequences of Unicode code points, [list N]; [py] turns an ASCII
      literal into one.  Texts that are only printed stay Rocq strings.
    - Dates.  [date.today()] reads an ambient clock; every operation that
      reads it takes the current day as the argument [today], a day
      ordinal in [Z] (as [date.toordinal] gives).
    - Exceptions.  A method is a function from the state of [self] to a
      result [Ok v s] or [Raise e s]; both carry the state in which the
      call leaves the object, since an assignment made before a [raise]
      stays made.  An exception is its Python class ([ValueError],
      [KeyError]) and its message; the message is kept structured, with
      the values the f-string interpolates as fields.
    - The registry [Dict[int, Account]] is a [gmap Z Account]; where the
      identity of the dict object matters ([list_accounts]) module
      [ObjectStore] below models dicts and accounts by reference.
    - The screens and the menu run on a world of input lines, output and
      bank; see the section on the console. *)

From Stdlib Require Import ZArith NArith Lia List Sorted Ascii String Floats.
From stdpp Require Import gmap strings sorting.

Local Open Scope Z_scope.
Set Warnings "-inexact-float".

(** ** Strings *)

Abbreviation str := (list N).

(** An ASCII literal as a Python string. *)
Fixpoint py (s : string) : str :=
  match s with
  | EmptyString => []
  | String c s' => N_of_ascii c :: py s'
  end.

(** [a == b] on strings. *)
Fixpoint str_eqb (a b : str) : bool :=
  match a, b with
  | [], [] => true
  | x :: a', y :: b' => N.eqb x y && str_eqb a' b'
  | _, _ => false
  end.

(** The characters [str.strip()] removes, those for which [str.isspace]
    holds: U+0009 to U+000D, U+001C to U+0020, U+0085, U+00A0, U+1680,
    U+2000 to U+200A, U+2028, U+2029, U+202F, U+205F and U+3000. *)
Definition is_space (c : N) : bool :=
  ((9 <=? c) && (c <=? 13) || (28 <=? c) && (c <=? 32)
   || (c =? 133) || (c =? 160) || (c =? 5760)
   || (8192 <=? c) && (c <=? 8202)
   || (c =? 8232) || (c =? 8233) || (c =? 8239) || (c =? 8287)
   || (c =? 12288))%N.

Fixpoint lstrip (s : str) : str :=
  match s with
  | [] => []
  | c :: s' => if is_space c then lstrip s' else s
  end.

Fixpoint rstrip (s : str) : str :=
  match s with
  | [] => []
  | c :: s' =>
      match rstrip s' with
      | [] => if is_space c then [] else [c]
      | r => c :: r
      end
  end.

(** [str.strip()] *)
Definition strip (s : str) : str := rstrip (lstrip s).

(** Truth value of a [str]: false exactly for the empty string. *)
Definition str_truthy (s : str) : bool :=
  match s with [] => false | _ :: _ => true end.

(** ** Exceptions and results *)

Inductive Message : Type :=
| DepositNotPositive          (* "Deposit amount must be positive." *)
| WithdrawalNotPositive       (* "Withdrawal amount must be positive." *)
| InsufficientFunds (bal : float)
                              (* f"Insufficient funds. Balance: {self.balance:.2f}" *)
| DailyLimitExceeded (remaining : float)
                              (* f"Daily limit exceeded. Remaining today: {remaining:.2f}" *)
| RateNegative                (* "Rate cannot be negative." *)
| OwnerRequired               (* "Owner name required." *)
| InitialDepositNegative      (* "Initial deposit cannot be negative." *)
| DailyLimitNegative          (* "Daily limit cannot be negative." *)
| AccountNotFound (num : Z)   (* f"Account #{number} not found." *)
| BalanceNotZero.             (* "Account balance must be zero before closing." *)

Inductive Exception : Type :=
| ValueError (m : Message)
| KeyError (m : Message).

(** The outcome of a call on an object whose state has type [S]. *)
Inductive Result (S A : Type) : Type :=
| Ok (v : A) (s : S)
| Raise (e : Exception) (s : S).
Arguments Ok {S A} v s.
Arguments Raise {S A} e s.

Definition state_of {S A} (r : Result S A) : S :=
  match r with Ok _ s => s | Raise _ s => s end.

Definition raised {S A} (r : Result S A) : option Exception :=
  match r with Ok _ _ => None | Raise e _ => Some e end.

Definition returned {S A} (r : Result S A) : option A :=
  match r with Ok v _ => Some v | Raise _ _ => None end.

(** Methods: state passing with exceptions. *)
Definition Method (S A : Type) : Type := S -> Result S A.

Definition ret {S A} (v : A) : Method S A := fun s => Ok v s.

Definition raise {S A} (e : Exception) : Method S A := fun s => Raise e s.

Definition bind {S A B} (m : Method S A) (k : A -> Method S B) : Method S B :=
  fun s => match m s with
           | Ok v s' => k v s'
           | Raise e s' => Raise e s'
           end.

Definition read {S} : Method S S := fun s => Ok s s.

Definition assign {S} (f : S -> S) : Method S unit := fun s => Ok tt (f s).

(** [if c: raise e] *)
Definition raise_if {S} (c : bool) (e : Exception) : Method S unit :=
  if c then raise e else ret tt.

Declare Scope method_scope.
Delimit Scope method_scope with method.
Notation "x <- m ;; k" := (bind m (fun x => k))
  (at level 62, m at next level, right associativity) : method_scope.
Notation "m ;;; k" := (bind m (fun _ => k))
  (at level 62, right associativity) : method_scope.

(** ** Account *)

Record Account : Type := mkAccount {
  number : Z;
  owner : str;
  balance : float;
  daily_limit : float;
  last_withdraw_date : Z;
  withdrawn_today : float
}.

Definition set_balance (v : float) (self : Account) : Account :=
  mkAccount (number self) (owner self) v (daily_limit self)
            (last_withdraw_date self) (withdrawn_today self).

Definition set_last_withdraw_date (v : Z) (self : Account) : Account :=
  mkAccount (number self) (owner self) (balance self) (daily_limit self)
            v (withdrawn_today self).

Definition set_withdrawn_today (v : float) (self : Account) : Account :=
  mkAccount (number self) (owner self) (balance self) (daily_limit self)
            (last_withdraw_date self) v.

Section AccountMethods.

Local Open Scope method_scope.

(** [Account._rollover_if_new_day] *)
Definition _rollover_if_new_day (today : Z) : Method Account unit :=
  self <- read ;;
  if negb (last_withdraw_date self =? today)%Z then
    assign (set_last_withdraw_date today) ;;;
    assign (set_withdrawn_today 0%float)
  else ret tt.

(** [Account.deposit] *)
Definition deposit (amount : float) : Method Account unit :=
  raise_if (amount <=? 0)%float (ValueError DepositNotPositive) ;;;
  assign (fun self => set_balance (balance self + amount)%float self).

(** [Account.withdraw]: [amount > x] is [x < amount]. *)
Definition withdraw (today : Z) (amount : float) : Method Account unit :=
  raise_if (amount <=? 0)%float (ValueError WithdrawalNotPositive) ;;;
  _rollover_if_new_day today ;;;
  self <- read ;;
  raise_if (balance self <? amount)%float
           (ValueError (InsufficientFunds (balance self))) ;;;
  (if (0 <? daily_limit self)%float then
     let remaining := (daily_limit self - withdrawn_today self)%float in
     raise_if (remaining <? amount)%float
              (ValueError (DailyLimitExceeded remaining))
   else ret tt) ;;;
  assign (fun self => set_balance (balance self - amount)%float self) ;;;
  assign (fun self => set_withdrawn_today (withdrawn_today self + amount)%float self).

(** [Account.apply_interest] *)
Definition apply_interest (rate_percent : float) : Method Account float :=
  raise_if (rate_percent <? 0)%float (ValueError RateNegative) ;;;
  self <- read ;;
  let interest := (balance self * (rate_percent / 100))%float in
  assign (set_balance (balance self + interest)%float) ;;;
  ret interest.

(** What [Account.__str__] prints, before formatting: the limit and the
    remaining allowance are [None] where the text has the sentinels
    "No limit" and the dash. *)
Record Summary : Type := mkSummary {
  sum_number : Z;
  sum_owner : str;
  sum_balance : float;
  sum_limit : option float;
  sum_remaining : option float
}.

(** [Account.__str__], the spec's [render] *)
Definition __str__ (today : Z) : Method Account Summary :=
  _rollover_if_new_day today ;;;
  self <- read ;;
  let lim := if (0 <? daily_limit self)%float
             then Some (daily_limit self) else None in
  let rem := if (0 <? daily_limit self)%float
             then Some (daily_limit self - withdrawn_today self)%float else None in
  ret (mkSummary (number self) (owner self) (balance self) lim rem).

End AccountMethods.

(** ** Bank *)

Record Bank : Type := mkBank {
  _accounts : gmap Z Account;
  _next : Z
}.

(** [Bank.__init__] *)
Definition Bank_init (starting_number : Z) : Bank := mkBank ∅ starting_number.

(** [Bank()], with the default [starting_number = 1001] *)
Definition Bank_default : Bank := Bank_init 1001.

(** [Bank.open_account].  The account is built and [_next] advanced before
    the initial deposit; an exception of [deposit] would leave the method
    there, with the account unregistered. *)
Definition open_account (today : Z) (owner : str)
    (initial_deposit daily_limit : float) : Method Bank Account :=
  fun self =>
    if negb (str_truthy (strip owner)) then
      Raise (ValueError OwnerRequired) self
    else if (initial_deposit <? 0)%float then
      Raise (ValueError InitialDepositNegative) self
    else if (daily_limit <? 0)%float then
      Raise (ValueError DailyLimitNegative) self
    else
      let acc := mkAccount (_next self) (strip owner) 0%float daily_limit
                           today 0%float in
      let self1 := mkBank (_accounts self) (_next self + 1) in
      match (if (0 <? initial_deposit)%float then deposit initial_deposit acc
             else Ok tt acc) with
      | Raise e _ => Raise e self1
      | Ok _ acc' =>
          Ok acc' (mkBank (<[number acc' := acc']> (_accounts self1)) (_next self1))
      end.

(** [Bank.close_account].  An [Account] object is always truthy, so
    [not acc] holds exactly when [get] found nothing; [balance != 0] is
    the negation of [balance == 0], true of NaN. *)
Definition close_account (num : Z) : Method Bank Account :=
  fun self =>
    match _accounts self !! num with
    | None => Raise (KeyError (AccountNotFound num)) self
    | Some acc =>
        if negb (balance acc =? 0)%float then Raise (ValueError BalanceNotZero) self
        else Ok acc (mkBank (delete num (_accounts self)) (_next self))
    end.

(** [Bank.get] *)
Definition get (num : Z) (self : Bank) : option Account := _accounts self !! num.

(** A method called on the account registered under [num], as the screens
    do after [bank.get(number)]: the account object is the registry's own,
    so the state in which the method leaves it is the registry's entry.
    [None] when there is no such account. *)
Definition on_account {A} (num : Z) (m : Method Account A) (self : Bank)
  : option (Result Bank A) :=
  match get num self with
  | None => None
  | Some acc =>
      let store acc' := mkBank (<[num := acc']> (_accounts self)) (_next self) in
      Some (match m acc with
            | Ok v acc' => Ok v (store acc')
            | Raise e acc' => Raise e (store acc')
            end)
  end.

(** ** Sequences of calls *)

(** Calls on one account. *)
Inductive AccountCall : Type :=
| Deposit (amount : float)
| Withdraw (amount : float)
| ApplyInterest (rate_percent : float)
| Str.

(** The state in which a call, made on day [today], leaves the account,
    whether it returns or raises. *)
Definition account_call (today : Z) (c : AccountCall) (self : Account) : Account :=
  match c with
  | Deposit amount => state_of (deposit amount self)
  | Withdraw amount => state_of (withdraw today amount self)
  | ApplyInterest rate => state_of (apply_interest rate self)
  | Str => state_of (__str__ today self)
  end.

(** A history of calls on one account, each with the day it is made on. *)
Fixpoint account_run (cs : list (Z * AccountCall)) (self : Account) : Account :=
  match cs with
  | [] => self
  | (today, c) :: cs' => account_run cs' (account_call today c self)
  end.

(** Calls on the bank, and through it on its accounts. *)
Inductive BankCall : Type :=
| Open (owner : str) (initial_deposit daily_limit : float)
| Close (num : Z)
| OnAccount (num : Z) (c : AccountCall).

Definition bank_call (today : Z) (c : BankCall) (self : Bank) : Bank :=
  match c with
  | Open owner initial_deposit daily_limit =>
      state_of (open_account today owner initial_deposit daily_limit self)
  | Close num => state_of (close_account num self)
  | OnAccount num c =>
      match get num self with
      | None => self
      | Some acc =>
          mkBank (<[num := account_call today c acc]> (_accounts self)) (_next self)
      end
  end.

(** The account number a call issues: that of the account a successful
    [open_account] returns. *)
Definition issued_by (today : Z) (c : BankCall) (self : Bank) : option Z :=
  match c with
  | Open owner initial_deposit daily_limit =>
      number <$> returned (open_account today owner initial_deposit daily_limit self)
  | _ => None
  end.

Fixpoint bank_run (cs : list (Z * BankCall)) (self : Bank) : Bank :=
  match cs with
  | [] => self
  | (today, c) :: cs' => bank_run cs' (bank_call today c self)
  end.

(** The numbers issued along a history, oldest first. *)
Fixpoint issued (cs : list (Z * BankCall)) (self : Bank) : list Z :=
  match cs with
  | [] => []
  | (today, c) :: cs' =>
      match issued_by today c self with
      | Some n => n :: issued cs' (bank_call today c self)
      | None => issued cs' (bank_call today c self)
      end
  end.

(** Every key the registry holds at some point of a history, the starting
    point included. *)
Fixpoint keys_seen (cs : list (Z * BankCall)) (self : Bank) : gset Z :=
  match cs with
  | [] => dom (_accounts self)
  | (today, c) :: cs' =>
      dom (_accounts self) ∪ keys_seen cs' (bank_call today c self)
  end.

(** ** The registry as an object

    [list_accounts] returns [dict(self._accounts)]: a new dict object whose
    values are the same [Account] objects.  What a caller can do to the
    bank through the returned dict depends on which objects are shared, so
    here dicts and accounts live in a store and are held by reference. *)

Module ObjectStore.

Record Heap : Type := mkHeap {
  account_objs : gmap positive Account;
  dict_objs : gmap positive (gmap Z positive)
}.

(** A [Bank] object: [_accounts] is a reference to a dict object. *)
Record BankObj : Type := mkBankObj {
  _accounts_ref : positive;
  _next_val : Z
}.

(** The contents of the dict object at [l]. *)
Definition dict_at (l : positive) (h : Heap) : gmap Z positive :=
  default ∅ (dict_objs h !! l).

(** [dict(d)]: a new dict object with the entries of the one at [l]. *)
Definition dict_copy (l : positive) (h : Heap) : positive * Heap :=
  let l' := fresh (dom (dict_objs h)) in
  (l', mkHeap (account_objs h) (<[l' := dict_at l h]> (dict_objs h))).

(** [Bank.list_accounts] *)
Definition list_accounts (self : BankObj) (h : Heap) : positive * Heap :=
  dict_copy (_accounts_ref self) h.

(** What a caller holding a reference to a dict can do to the collection:
    [d[k] = v], [del d[k]], [d.pop(k, None)], [d.clear()]. *)
Inductive DictOp : Type :=
| SetItem (k : Z) (v : positive)
| DelItem (k : Z)
| Pop (k : Z)
| Clear.

Definition dict_apply (op : DictOp) (d : gmap Z positive) : gmap Z positive :=
  match op with
  | SetItem k v => <[k := v]> d
  | DelItem k => delete k d      (* raises KeyError when [k] is absent *)
  | Pop k => delete k d
  | Clear => ∅
  end.

(** The store after [op] on the dict object at [l]. *)
Definition dict_op (l : positive) (op : DictOp) (h : Heap) : Heap :=
  match dict_objs h !! l with
  | None => h
  | Some d => mkHeap (account_objs h) (<[l := dict_apply op d]> (dict_objs h))
  end.

Definition dict_ops (l : positive) (ops : list DictOp) (h : Heap) : Heap :=
  foldl (fun h op => dict_op l op h) h ops.

(** A method run on the account object at [r]. *)
Definition account_op (r : positive) (f : Account -> Account) (h : Heap) : Heap :=
  mkHeap (alter f r (account_objs h)) (dict_objs h).

(** The accounts a dict maps to, read through the store. *)
Definition resolve (h : Heap) (d : gmap Z positive) : gmap Z Account :=
  omap (fun r => account_objs h !! r) d.

(** The bank of the value model that a bank object stands for. *)
Definition bank_view (self : BankObj) (h : Heap) : Bank :=
  mkBank (resolve h (dict_at (_accounts_ref self) h)) (_next_val self).

End ObjectStore.

(** ** The console: prompts, screens and the menu

    The screens read lines and print.  A world holds the lines still to
    be entered, what has been written so far, the day, and the bank the
    menu created.  Each line comes with the day it is entered on, and
    [date.today()] is the day of the line entered last: between two
    inputs the program takes no time.  What is written is kept as a list
    of items rather than as text: a prompt, a fixed text, an account (the
    text of [__str__], kept as its [Summary]), an exception (its
    message), the interest credited.

    [float(raw)] and [int(raw)] are Python's; they are taken as the
    functions [parse_float] and [parse_int], [None] where Python raises
    [ValueError].  [float] reads some lines as an infinity or as NaN
    ("inf", "nan"), and [read_float] returns these as any other value.

    A variable bound to an account of the registry is kept as the number
    it is registered under. *)

Inductive Output : Type :=
| Asked (prompt : string)
| Printed (text : string)
| PrintedAccount (line : Summary)
| PrintedError (e : Exception)
| PrintedInterest (interest : float).

Record World : Type := mkWorld {
  stdin : list (Z * str);
  stdout : list Output;
  clock : Z;
  the_bank : Bank
}.

(** What leaves a function as an exception: the end of the input, or an
    exception of the bank that nothing caught. *)
Inductive Stop : Type :=
| EOFError
| Propagated (e : Exception).

Inductive Run (A : Type) : Type :=
| Returns (v : A) (w : World)
| Stops (x : Stop) (w : World).
Arguments Returns {A} v w.
Arguments Stops {A} x w.

Definition world_of {A} (r : Run A) : World :=
  match r with Returns _ w => w | Stops _ w => w end.

Definition IO (A : Type) : Type := World -> Run A.

Definition io_ret {A} (v : A) : IO A := fun w => Returns v w.

Definition io_bind {A B} (m : IO A) (k : A -> IO B) : IO B :=
  fun w => match m w with
           | Returns v w' => k v w'
           | Stops x w' => Stops x w'
           end.

Declare Scope io_scope.
Delimit Scope io_scope with io.
Notation "x <- m ;; k" := (io_bind m (fun x => k))
  (at level 62, m at next level, right associativity) : io_scope.
Notation "m ;;; k" := (io_bind m (fun _ => k))
  (at level 62, right associativity) : io_scope.

Definition emit (o : Output) (w : World) : World :=
  mkWorld (stdin w) (stdout w ++ [o]) (clock w) (the_bank w).

Definition set_bank (b : Bank) (w : World) : World :=
  mkWorld (stdin w) (stdout w) (clock w) b.

(** [print(text)] *)
Definition print (text : string) : IO unit :=
  fun w => Returns tt (emit (Printed text) w).

(** [input(prompt)]: writes the prompt and takes the next line; raises
    [EOFError] when there is none. *)
Definition input (prompt : string) : IO str :=
  fun w => match stdin w with
           | [] => Stops EOFError (emit (Asked prompt) w)
           | (day, line) :: rest =>
               Returns line (mkWorld rest (stdout w ++ [Asked prompt]) day (the_bank w))
           end.

(** [try: body except ...: handler], for the exceptions of the bank. *)
Definition try_except {A} (body : IO A) (catches : Exception -> bool)
    (handler : Exception -> IO A) : IO A :=
  fun w => match body w with
           | Stops (Propagated e) w' =>
               if catches e then handler e w' else Stops (Propagated e) w'
           | r => r
           end.

Definition is_ValueError (e : Exception) : bool :=
  match e with ValueError _ => true | KeyError _ => false end.

Definition is_KeyError (e : Exception) : bool :=
  match e with KeyError _ => true | ValueError _ => false end.

(** A method of the bank, called today. *)
Definition call_bank {A} (m : Z -> Method Bank A) : IO A :=
  fun w => match m (clock w) (the_bank w) with
           | Ok v b => Returns v (set_bank b w)
           | Raise e b => Stops (Propagated e) (set_bank b w)
           end.

(** A method of the account registered under [num], called today.  The
    screens call one only on an account that [bank.get] has just found;
    for a number that is not registered, which has no counterpart in the
    source, the call is made to stop with [KeyError]. *)
Definition call_account {A} (num : Z) (m : Z -> Method Account A) : IO A :=
  fun w => match on_account num (m (clock w)) (the_bank w) with
           | Some (Ok v b) => Returns v (set_bank b w)
           | Some (Raise e b) => Stops (Propagated e) (set_bank b w)
           | None => Stops (Propagated (KeyError (AccountNotFound num))) w
           end.

(** [bank.get(number)] *)
Definition bank_get (num : Z) : IO (option Account) :=
  fun w => Returns (get num (the_bank w)) w.

Definition newline : string := String (ascii_of_nat 10) EmptyString.

(** ["_" * 70] *)
Definition rule : string := String.concat "" (replicate 70 "_").

(** [str.lower()], whose result the code only compares with "y": exact
    on the ASCII range; a character outside it is left as it is, where
    Python may change it, but never to "y". *)
Definition lower_char (c : N) : N :=
  if ((65 <=? c) && (c <=? 90))%N then (c + 32)%N else c.

Definition lower (s : str) : str := map lower_char s.

(** The registered numbers in the order in which [dict.values()] yields
    their accounts.  A dict keeps insertion order; the registry is filled
    by [open_account] only, with increasing numbers, so that is
    increasing order. *)
Definition registered_numbers (b : Bank) : list Z :=
  merge_sort Z.le (elements (dom (_accounts b))).

Section Console.

Variable parse_float : str -> option float.
Variable parse_int : str -> option Z.

Local Open Scope io_scope.

(** [read_float]: the loop, over the lines still to be entered. *)
Fixpoint read_float_lines (prompt : string) (lines : list (Z * str))
    (out : list Output) (day : Z) (b : Bank) : Run float :=
  match lines with
  | [] => Stops EOFError (mkWorld [] (out ++ [Asked prompt]) day b)
  | (d, raw) :: rest =>
      match parse_float (strip raw) with
      | Some v => Returns v (mkWorld rest (out ++ [Asked prompt]) d b)
      | None =>
          read_float_lines prompt rest
            ((out ++ [Asked prompt]) ++ [Printed "Please enter a valid number."])
            d b
      end
  end.

Definition read_float (prompt : string) : IO float :=
  fun w => read_float_lines prompt (stdin w) (stdout w) (clock w) (the_bank w).

(** [read_int] *)
Fixpoint read_int_lines (prompt : string) (lines : list (Z * str))
    (out : list Output) (day : Z) (b : Bank) : Run Z :=
  match lines with
  | [] => Stops EOFError (mkWorld [] (out ++ [Asked prompt]) day b)
  | (d, raw) :: rest =>
      match parse_int (strip raw) with
      | Some v => Returns v (mkWorld rest (out ++ [Asked prompt]) d b)
      | None =>
          read_int_lines prompt rest
            ((out ++ [Asked prompt]) ++ [Printed "Please enter a valid integer."])
            d b
      end
  end.

Definition read_int (prompt : string) : IO Z :=
  fun w => read_int_lines prompt (stdin w) (stdout w) (clock w) (the_bank w).

(** [pause] *)
Definition pause : IO unit :=
  _ <- input (newline +:+ "Press Enter to continue...") ;; io_ret tt.

(** [print_header] *)
Definition print_header (title : string) : IO unit :=
  print (newline +:+ rule) ;;;
  print title ;;;
  print rule.

(** [show_account], and [print(acc)]: [__str__] runs on the account. *)
Definition show_account (num : Z) : IO unit :=
  line <- call_account num __str__ ;;
  fun w => Returns tt (emit (PrintedAccount line) w).

(** [print(f"{e}")] *)
Definition print_error (e : Exception) : IO unit :=
  fun w => Returns tt (emit (PrintedError e) w).

(** [screen_open_account] *)
Definition screen_open_account : IO unit :=
  print_header "Open New Account" ;;;
  raw <- input "Owner name: " ;;
  let name := strip raw in
  initial <- read_float "Initial deposit (₹): " ;;
  limit <- read_float "Daily withdrawal limit (₹, 0 for no limit): " ;;
  try_except
    (acc <- call_bank (fun today => open_account today name initial limit) ;;
     print (newline +:+ " Account opened successfully!") ;;;
     show_account (number acc))
    is_ValueError print_error ;;;
  pause.

(** [screen_close_account] *)
Definition screen_close_account : IO unit :=
  print_header "Close Account" ;;;
  num <- read_int "Account number: " ;;
  try_except
    (acc <- bank_get num ;;
     match acc with
     | None => print "Account not found."
     | Some _ =>
         print "Current state:" ;;;
         show_account num ;;;
         raw <- input "Close this account? (requires zero balance) [y/N]: " ;;
         let confirm := lower (strip raw) in
         if str_eqb confirm (py "y") then
           _ <- call_bank (fun _ => close_account num) ;;
           print "Account closed."
         else print "Cancelled."
     end)
    (fun e => is_KeyError e || is_ValueError e) print_error ;;;
  pause.

(** [screen_deposit] *)
Definition screen_deposit : IO unit :=
  print_header "Deposit" ;;;
  num <- read_int "Account number: " ;;
  amount <- read_float "Amount (₹): " ;;
  acc <- bank_get num ;;
  match acc with
  | None => print "Account not found."
  | Some _ =>
      try_except
        (call_account num (fun _ => deposit amount) ;;;
         print "Deposit successful." ;;;
         show_account num)
        is_ValueError print_error
  end ;;;
  pause.

(** [screen_withdraw] *)
Definition screen_withdraw : IO unit :=
  print_header "Withdraw" ;;;
  num <- read_int "Account number: " ;;
  amount <- read_float "Amount (₹): " ;;
  acc <- bank_get num ;;
  match acc with
  | None => print "Account not found."
  | Some _ =>
      try_except
        (call_account num (fun today => withdraw today amount) ;;;
         print "Withdrawal successful." ;;;
         show_account num)
        is_ValueError print_error
  end ;;;
  pause.

(** [screen_interest] *)
Definition screen_interest : IO unit :=
  print_header "Apply Interest" ;;;
  num <- read_int "Account number: " ;;
  rate <- read_float "Rate (%): " ;;
  acc <- bank_get num ;;
  match acc with
  | None => print "Account not found."
  | Some _ =>
      try_except
        (interest <- call_account num (fun _ => apply_interest rate) ;;
         (fun w => Returns tt (emit (PrintedInterest interest) w)) ;;;
         show_account num)
        is_ValueError print_error
  end ;;;
  pause.

(** [screen_lookup] *)
Definition screen_lookup : IO unit :=
  print_header "Lookup Account" ;;;
  num <- read_int "Account number: " ;;
  acc <- bank_get num ;;
  match acc with
  | None => print "Account not found."
  | Some _ => show_account num
  end ;;;
  pause.

(** [for acc in accts.values(): print(acc)] *)
Fixpoint print_accounts (nums : list Z) : IO unit :=
  match nums with
  | [] => io_ret tt
  | num :: rest => show_account num ;;; print_accounts rest
  end.

(** [screen_list].  [list_accounts] copies the registry; the accounts
    printed are the bank's own. *)
Definition screen_list : IO unit :=
  print_header "All Accounts" ;;;
  accts <- (fun w => Returns (registered_numbers (the_bank w)) w) ;;
  match accts with
  | [] => print "No accounts yet."
  | _ => print_accounts accts
  end ;;;
  pause.

(** The branches of the loop of [main_menu] on the choice entered:
    [false] on [break]. *)
Definition menu_choice (choice : str) : IO bool :=
  if str_eqb choice (py "1") then screen_open_account ;;; io_ret true
  else if str_eqb choice (py "2") then screen_close_account ;;; io_ret true
  else if str_eqb choice (py "3") then screen_deposit ;;; io_ret true
  else if str_eqb choice (py "4") then screen_withdraw ;;; io_ret true
  else if str_eqb choice (py "5") then screen_interest ;;; io_ret true
  else if str_eqb choice (py "6") then screen_lookup ;;; io_ret true
  else if str_eqb choice (py "7") then screen_list ;;; io_ret true
  else if str_eqb choice (py "0") then
    print (newline +:+ "Goodbye!") ;;; io_ret false
  else print "Invalid choice." ;;; pause ;;; io_ret true.

(** What the loop of [main_menu] prints before it asks for the choice. *)
Definition print_menu : IO unit :=
  print_header "BANK OF JOE" ;;;
  print "1) Open account" ;;;
  print "2) Close account" ;;;
  print "3) Deposit" ;;;
  print "4) Withdraw" ;;;
  print "5) Apply interest" ;;;
  print "6) Lookup account" ;;;
  print "7) List all accounts" ;;;
  print "0) Exit".

(** One turn of the loop of [main_menu]. *)
Definition menu_turn : IO bool :=
  print_menu ;;;
  raw <- input (newline +:+ "Choose: ") ;;
  menu_choice (strip raw).

(** The loop of [main_menu], for at most [fuel] turns; [None] when the
    turns run out. *)
Fixpoint menu_loop (fuel : nat) (w : World) : option (Run unit) :=
  match fuel with
  | O => None
  | S fuel' =>
      match menu_turn w with
      | Returns true w' => menu_loop fuel' w'
      | Returns false w' => Some (Returns tt w')
      | Stops x w' => Some (Stops x w')
      end
  end.

(** [main_menu], on the lines [lines], started on day [day]: a new
    [Bank()], then the loop.  Every turn takes a line, so one turn more
    than there are lines is enough. *)
Definition main_menu (lines : list (Z * str)) (day : Z) : option (Run unit) :=
  menu_loop (S (length lines)) (mkWorld lines [] day Bank_default).

End Console.

(** What a reading loop writes for the lines it rejects. *)
Definition rejected (prompt message : string) (bad : list (Z * str))
  : list Output :=
  flat_map (fun _ => [Asked prompt; Printed message]) bad.

(** Where one world can lead through calls in [P]: lines are taken from
    the front of the input, what was written stays written, and the bank
    goes through a history of calls, each with its day, that are all in
    [P]. *)
Definition leads_to (P : Z * BankCall -> Prop) (w w' : World) : Prop :=
  (exists taken, stdin w = taken ++ stdin w')
  /\ (exists written, stdout w' = stdout w ++ written)
  /\ (exists cs, Forall P cs /\ the_bank w' = bank_run cs (the_bank w)).

(** A run that went no further than [leads_to P] allows from [w], and
    stopped, if it did, at the end of the input or on an exception in
    [E]. *)
Definition mild {A} (P : Z * BankCall -> Prop) (E : Exception -> Prop)
    (w : World) (r : Run A) : Prop :=
  leads_to P w (world_of r)
  /\ match r with
     | Stops (Propagated e) _ => E e
     | _ => True
     end.

(** Any call; no exception. *)
Definition any_call (tc : Z * BankCall) : Prop := True.
Definition no_exception (e : Exception) : Prop := False.

(** A call on the account registered under [num]. *)
Definition on_number (num : Z) (tc : Z * BankCall) : Prop :=
  exists c, snd tc = OnAccount num c.

(** Parsers for the examples.  [parse_digits] reads a decimal numeral
    without sign.  [parse_amount] reads the words "nan" and "inf", and a
    decimal numeral without sign or exponent, with or without a point: a
    numeral of digits [n] with [k] of them after the point is [n / 10^k],
    one rounded division of two integers that binary64 holds exactly
    ([n] below 2^53, [10^k] at most 10^22), which is the number nearest
    to the numeral.  On the lines of the sessions below they give what
    Python's [int] and [float] give. *)
Definition is_digit (c : N) : bool := ((48 <=? c) && (c <=? 57))%N.

Fixpoint digits_value (acc : Z) (s : str) : option Z :=
  match s with
  | [] => Some acc
  | c :: s' =>
      if is_digit c then digits_value (10 * acc + Z.of_N (c - 48)) s'
      else None
  end.

Definition parse_digits (s : str) : option Z :=
  match s with
  | [] => None
  | _ => digits_value 0 s
  end.

Fixpoint decimal_value (num den : Z) (point : bool) (s : str)
  : option (Z * Z) :=
  match s with
  | [] => Some (num, den)
  | c :: s' =>
      if is_digit c then
        decimal_value (10 * num + Z.of_N (c - 48))
                      (if point then 10 * den else den) point s'
      else if (c =? 46)%N && negb point then decimal_value num den true s'
      else None
  end.

Definition float_of_Z (z : Z) : float := PrimFloat.of_uint63 (Uint63.of_Z z).

Definition parse_amount (s : str) : option float :=
  if str_eqb s (py "nan") then Some nan
  else if str_eqb s (py "inf") then Some infinity
  else if existsb is_digit s then
    match decimal_value 0 1 false s with
    | Some (num, den) =>
        if (num <? 2 ^ 53) && (den <=? 10 ^ 22)
        then Some (float_of_Z num / float_of_Z den)%float
        else None
    | None => None
    end
  else None.

(** A session: Alice opens an account with 100 and a limit of 50,
    withdraws 40, is refused 20, comes back the next day for 20, lists
    the accounts and leaves. *)
Definition session1 : list (Z * str) :=
  [(0, py "1"); (0, py " Alice "); (0, py "100"); (0, py "50"); (0, py "");
   (0, py "4"); (0, py "1001"); (0, py "x"); (0, py "40"); (0, py "");
   (0, py "4"); (0, py "1001"); (0, py "20"); (0, py "");
   (1, py "4"); (1, py "1001"); (1, py "20"); (1, py "");
   (1, py "7"); (1, py "");
   (1, py "9"); (1, py "");
   (1, py "0")].

(** At the amount prompts: Alice opens an account with 100 and no
    limit, and deposits 'nan'. *)
Definition session_nan_deposit : list (Z * str) :=
  [(0, py "1"); (0, py "Alice"); (0, py "100"); (0, py "0"); (0, py "");
   (0, py "3"); (0, py "1001"); (0, py "nan"); (0, py "");
   (0, py "0")].

(** Alice opens an account with 100 and a limit of 50, and withdraws
    'nan'. *)
Definition session_nan_withdraw : list (Z * str) :=
  [(0, py "1"); (0, py "Alice"); (0, py "100"); (0, py "50"); (0, py "");
   (0, py "4"); (0, py "1001"); (0, py "nan"); (0, py "");
   (0, py "0")].

(** Alice opens an account with 100 and a limit of 1.2, and withdraws
    0.14 and 1.06 on the same day. *)
Definition session_limit : list (Z * str) :=
  [(0, py "1"); (0, py "Alice"); (0, py "100"); (0, py "1.2"); (0, py "");
   (0, py "4"); (0, py "1001"); (0, py "0.14"); (0, py "");
   (0, py "4"); (0, py "1001"); (0, py "1.06"); (0, py "");
   (0, py "0")].

(** ** Derived notions *)

(** The account as [_rollover_if_new_day] leaves it. *)
Definition rolled (today : Z) (self : Account) : Account :=
  state_of (_rollover_if_new_day today self).

(** With a limit set, the amount withdrawn today is within it. *)
Definition within_limit (self : Account) : Prop :=
  (0 <? daily_limit self)%float = true ->
  (withdrawn_today self <=? daily_limit self)%float = true.

(** [P] holds of every registered account. *)
Definition all_accounts (P : Account -> Prop) (self : Bank) : Prop :=
  forall n acc, get n self = Some acc -> P acc.

(** Every key of the registry is below [_next]. *)
Definition keys_below_next (self : Bank) : Prop :=
  forall n, n ∈ dom (_accounts self) -> n < _next self.

(** The identity of an account: what [open_account] fixes for good. *)
Definition same_identity (a b : Account) : Prop :=
  number a = number b /\ owner a = owner b /\ daily_limit a = daily_limit b.

(** What the registry holds under a number: the account of that number,
    with a trimmed, non-empty owner and a limit that passed the check
    [daily_limit < 0] of [open_account]. *)
Definition well_registered (n : Z) (acc : Account) : Prop :=
  number acc = n
  /\ str_truthy (owner acc) = true
  /\ strip (owner acc) = owner acc
  /\ (daily_limit acc <? 0)%float = false.

(** A binary64 value, as the specification of the floats decodes it,
    that is not below zero: a zero of either sign, a positive number,
    plus infinity, or NaN. *)
Definition not_negative (x : spec_float) : bool :=
  match x with
  | S754_infinity true | S754_finite true _ _ => false
  | _ => true
  end.

(** [k] consecutive numbers from [n] on. *)
Fixpoint count_from (n : Z) (k : nat) : list Z :=
  match k with
  | O => []
  | S k' => n :: count_from (n + 1) k'
  end.

(** ** Accounts, banks and histories of the scenarios *)

(** Alice's account as the first scenario opens it. *)
Definition alice : Account := mkAccount 1001 (py "Alice") 100 50 0 0.

(** Alice's account of the scenarios after the withdrawal of 40 on day 0:
    balance 60, limit 50, 40 withdrawn on day 0. *)
Definition alice_spent : Account := mkAccount 1001 (py "Alice") 60 50 0 40.

(** A bank whose one account holds a hundredth of a unit. *)
Definition bank_cent : Bank :=
  mkBank {[ 1001 := mkAccount 1001 (py "Alice") 0.01 50 0 0 ]} 1002.

(** A bank whose one account is empty. *)
Definition bank_zero : Bank :=
  mkBank {[ 1001 := mkAccount 1001 (py "Alice") 0 50 0 44 ]} 1002.

(** Scenarios 1 to 6 of the specification, up to the refused closing,
    followed by a refused and an accepted opening. *)
Definition history_bank : list (Z * BankCall) :=
  [(0, Open (py " Alice ") 100 50); (0, OnAccount 1001 (Withdraw 40));
   (0, OnAccount 1001 (Withdraw 20)); (1, OnAccount 1001 (Withdraw 20));
   (1, OnAccount 1001 (ApplyInterest 10)); (1, Close 1001);
   (1, Open (py "") 5 5); (2, Open (py "Bob") 0 0)].

(** Alice opens an account with 100 and deposits NaN. *)
Definition history_nan_deposit : list (Z * BankCall) :=
  [(0, Open (py "Alice") 100 0); (0, OnAccount 1001 (Deposit nan))].

(** Finite amounts only: an account opened with 1e308 earns interest at
    rate 1e308, then at rate 0. *)
Definition history_overflow : list (Z * BankCall) :=
  [(0, Open (py "Alice") 1e308 0); (0, OnAccount 1001 (ApplyInterest 1e308));
   (0, OnAccount 1001 (ApplyInterest 0))].

(** Openings and a closing: two accepted openings, a refused one, the
    closing of the first account, another refused opening, a last
    accepted one. *)
Definition history_numbers : list (Z * BankCall) :=
  [(0, Open (py "Alice") 0 0); (0, Open (py "Bob") 10 0); (0, Open (py "") 5 5);
   (1, Close 1001); (1, Open (py "Carol") (-1) 0); (2, Open (py "Dave") 0 0)].

(** A store with Alice's and Bob's accounts at references 1 and 2, and the
    bank's registry as the dict at reference 3. *)
Definition heap1 : ObjectStore.Heap :=
  ObjectStore.mkHeap
    {[ 1%positive := mkAccount 1001 (py "Alice") 100 50 0 0;
       2%positive := mkAccount 1002 (py "Bob") 0 0 0 0 ]}
    {[ 3%positive := {[ 1001 := 1%positive; 1002 := 2%positive ]} ]}.

(** The bank object of that store. *)
Definition bank_obj1 : ObjectStore.BankObj := ObjectStore.mkBankObj 3 1003.

(** * Properties *)

(** ** Comparisons *)

(** A positive amount passes the test [amount <= 0]. *)
Lemma ltb_pos_not_leb (a : float) :
  (0 <? a)%float = true -> (a <=? 0)%float = false.
Proof.
  rewrite ltb_spec, leb_spec. unfold SFltb, SFleb.
  change (Prim2SF 0) with (S754_zero false).
  destruct (Prim2SF a) as [s|s| |s m e]; cbn; try discriminate;
    destruct s; cbn; try discriminate; reflexivity.
Qed.

Lemma str_eqb_eq (a b : str) : str_eqb a b = true <-> a = b.
Proof.
  revert b. induction a as [|x a IH]; intros [|y b]; cbn;
    try (split; [discriminate | congruence]).
  - split; reflexivity.
  - rewrite andb_true_iff, N.eqb_eq, IH. split.
    + intros [-> ->]. reflexivity.
    + intros [= -> ->]. split; reflexivity.
Qed.

(** ** Scenarios of the specification *)

Example scenario_1 :
  open_account 0 (py " Alice ") 100 50 Bank_default
  = Ok (mkAccount 1001 (py "Alice") 100 50 0 0)
       (mkBank {[ 1001 := mkAccount 1001 (py "Alice") 100 50 0 0 ]} 1002).
Proof. vm_compute. reflexivity. Qed.

Example scenario_2 : withdraw 0 40 alice = Ok tt alice_spent.
Proof. reflexivity. Qed.

Example scenario_3 :
  withdraw 0 20 alice_spent
  = Raise (ValueError (DailyLimitExceeded 10)) alice_spent.
Proof. reflexivity. Qed.

Example scenario_4 :
  withdraw 1 20 alice_spent = Ok tt (mkAccount 1001 (py "Alice") 40 50 1 20).
Proof. reflexivity. Qed.

Example scenario_5 :
  apply_interest 10 (mkAccount 1001 (py "Alice") 40 50 1 20)
  = Ok 4%float (mkAccount 1001 (py "Alice") 44 50 1 20).
Proof. reflexivity. Qed.

Example scenario_6 :
  let bank44 := mkBank {[ 1001 := mkAccount 1001 (py "Alice") 44 50 1 20 ]} 1002 in
  close_account 1001 bank44 = Raise (ValueError BalanceNotZero) bank44
  /\ (on_account 1001 (withdraw 2 44) bank44
       ≫= fun r => get 1001 (state_of (close_account 1001 (state_of r))))
     = None
  /\ (on_account 1001 (withdraw 2 44) bank44
       ≫= fun r => returned (close_account 1001 (state_of r)))
     = Some (mkAccount 1001 (py "Alice") 0 50 2 44).
Proof. vm_compute. repeat split; reflexivity. Qed.

(** The scenarios as one history. *)
Example scenario_history :
  issued history_bank Bank_default = [1001; 1002]
  /\ _next (bank_run history_bank Bank_default) = 1003
  /\ (balance <$> get 1001 (bank_run history_bank Bank_default)) = Some 44%float
  /\ (withdrawn_today <$> get 1001 (bank_run history_bank Bank_default))
     = Some 20%float.
Proof. vm_compute. repeat split; reflexivity. Qed.

(** ** Account methods, case by case *)

Ltac unfold_method :=
  unfold withdraw, deposit, apply_interest, __str__, _rollover_if_new_day,
    bind, raise_if, raise, ret, read, assign in *.

Lemma rollover_returns today self :
  _rollover_if_new_day today self = Ok tt (rolled today self).
Proof.
  unfold rolled. unfold_method.
  destruct (last_withdraw_date self =? today); reflexivity.
Qed.

Lemma rolled_same_day today self :
  last_withdraw_date self = today -> rolled today self = self.
Proof.
  intros <-. unfold rolled. unfold_method. now rewrite Z.eqb_refl.
Qed.

Lemma rolled_new_day today self :
  last_withdraw_date self <> today ->
  rolled today self =
  mkAccount (number self) (owner self) (balance self) (daily_limit self) today 0.
Proof.
  intros Hne. unfold rolled. unfold_method.
  apply Z.eqb_neq in Hne. now rewrite Hne.
Qed.

Lemma rolled_date today self : last_withdraw_date (rolled today self) = today.
Proof.
  destruct (Z.eq_dec (last_withdraw_date self) today) as [Heq|Hne].
  - now rewrite rolled_same_day.
  - now rewrite rolled_new_day.
Qed.

Lemma rolled_frame today self :
  number (rolled today self) = number self /\
  owner (rolled today self) = owner self /\
  balance (rolled today self) = balance self /\
  daily_limit (rolled today self) = daily_limit self.
Proof.
  destruct (Z.eq_dec (last_withdraw_date self) today) as [Heq|Hne].
  - now rewrite rolled_same_day.
  - now rewrite rolled_new_day.
Qed.

Lemma rolled_idem today self : rolled today (rolled today self) = rolled today self.
Proof. apply rolled_same_day, rolled_date. Qed.

(** [withdraw] in one equation: the amount test on the account as it is,
    the other tests and the debit on the rolled-over account. *)
Lemma withdraw_eq today amount self :
  withdraw today amount self =
  if (amount <=? 0)%float then Raise (ValueError WithdrawalNotPositive) self
  else
    let r := rolled today self in
    if (balance r <? amount)%float then
      Raise (ValueError (InsufficientFunds (balance r))) r
    else if (0 <? daily_limit r)%float
            && (daily_limit r - withdrawn_today r <? amount)%float then
      Raise (ValueError (DailyLimitExceeded (daily_limit r - withdrawn_today r))) r
    else
      Ok tt (mkAccount (number r) (owner r) (balance r - amount) (daily_limit r)
                       (last_withdraw_date r) (withdrawn_today r + amount)).
Proof.
  unfold rolled. unfold_method.
  destruct (amount <=? 0)%float; [reflexivity|]. cbn.
  destruct (negb (last_withdraw_date self =? today)); cbn;
    (destruct (_ <? amount)%float; [reflexivity|]); cbn;
    (destruct (0 <? _)%float; cbn; [|reflexivity]);
    (destruct (_ <? amount)%float; reflexivity).
Qed.

Lemma deposit_eq amount self :
  deposit amount self =
  if (amount <=? 0)%float then Raise (ValueError DepositNotPositive) self
  else Ok tt (set_balance (balance self + amount) self).
Proof. unfold_method. destruct (amount <=? 0)%float; reflexivity. Qed.

Lemma apply_interest_eq rate self :
  apply_interest rate self =
  if (rate <? 0)%float then Raise (ValueError RateNegative) self
  else Ok (balance self * (rate / 100))%float
          (set_balance (balance self + balance self * (rate / 100)) self).
Proof. unfold_method. destruct (rate <? 0)%float; reflexivity. Qed.

Lemma str_state today self : state_of (__str__ today self) = rolled today self.
Proof.
  unfold rolled. unfold_method.
  destruct (negb (last_withdraw_date self =? today)); reflexivity.
Qed.

(** ** Order of the steps of [withdraw] *)






(** The cases of [withdraw] where binary64 shows.  With a limit of 1.2
    and 0.14 withdrawn, the difference [1.2 - 0.14] is rounded to
    1.0600000000000001, so 1.06 is not above it and the call returns.
    On a balance of 2e16 a withdrawal of 1 returns and the difference
    [2e16 - 1] is rounded back to 2e16. *)
Example withdraw_rounds :
  withdraw 0 1.06 (mkAccount 1001 (py "Alice") 100 1.2 0 0.14)
  = Ok tt (mkAccount 1001 (py "Alice") (100 - 1.06) 1.2 0 (0.14 + 1.06))
  /\ (1.2 - 0.14)%float = 1.0600000000000001%float
  /\ withdraw 0 1 (mkAccount 1001 (py "Alice") 2e16 0 0 0)
     = Ok tt (mkAccount 1001 (py "Alice") 2e16 0 0 1).
Proof. repeat split; reflexivity. Qed.

(** ** Failing calls *)

Lemma open_account_eq today name initial_deposit limit self :
  open_account today name initial_deposit limit self =
  if negb (str_truthy (strip name)) then Raise (ValueError OwnerRequired) self
  else if (initial_deposit <? 0)%float
       then Raise (ValueError InitialDepositNegative) self
  else if (limit <? 0)%float then Raise (ValueError DailyLimitNegative) self
  else
    let acc := mkAccount (_next self) (strip name)
                 (if (0 <? initial_deposit)%float
                  then (0 + initial_deposit)%float else 0%float)
                 limit today 0 in
    Ok acc (mkBank (<[_next self := acc]> (_accounts self)) (_next self + 1)).
Proof.
  unfold open_account.
  destruct (negb _); [reflexivity|].
  destruct (initial_deposit <? 0)%float; [reflexivity|].
  destruct (limit <? 0)%float; [reflexivity|].
  destruct (0 <? initial_deposit)%float eqn:Hpos; [|reflexivity].
  rewrite deposit_eq.
  apply ltb_pos_not_leb in Hpos. rewrite Hpos. reflexivity.
Qed.

(** C1, counterexample.  On day 1, on an account last used on day 0 with
    40 withdrawn, [withdraw(100)] raises for insufficient funds and
    [withdraw(60)] for the daily limit; both leave the account rolled over
    ([last_withdraw_date] day 1, [withdrawn_today] 0), not as it was. *)
Lemma failed_withdraw_rolls_over :
  raised (withdraw 1 100 alice_spent) = Some (ValueError (InsufficientFunds 60))
  /\ raised (withdraw 1 60 alice_spent)
     = Some (ValueError (DailyLimitExceeded (50 - 0)))
  /\ state_of (withdraw 1 100 alice_spent) = mkAccount 1001 (py "Alice") 60 50 1 0
  /\ state_of (withdraw 1 60 alice_spent) = mkAccount 1001 (py "Alice") 60 50 1 0
  /\ state_of (withdraw 1 100 alice_spent) <> alice_spent
  /\ state_of (withdraw 1 60 alice_spent) <> alice_spent.
Proof.
  repeat split; try reflexivity;
    intros H; apply (f_equal last_withdraw_date) in H; discriminate H.
Qed.

(** C1, amended.  A raising [deposit], [apply_interest], [open_account] or
    [close_account] leaves the account, respectively the bank (registry
    and [_next]), exactly as it was.  A raising [withdraw] leaves the
    account as it was when it raises on the amount ([amount <= 0]) or is
    made on the account's [last_withdraw_date]; when it raises past the
    amount test, for funds or limit, on another day, it leaves the
    account with [last_withdraw_date] set to today and [withdrawn_today]
    to 0, and nothing else changed. *)
Theorem failure_leaves_state :
  (forall amount self e,
      raised (deposit amount self) = Some e ->
      state_of (deposit amount self) = self)
  /\ (forall rate self e,
      raised (apply_interest rate self) = Some e ->
      state_of (apply_interest rate self) = self)
  /\ (forall today name initial_deposit limit self e,
      raised (open_account today name initial_deposit limit self) = Some e ->
      state_of (open_account today name initial_deposit limit self) = self)
  /\ (forall num self e,
      raised (close_account num self) = Some e ->
      state_of (close_account num self) = self)
  /\ (forall today amount self e,
      raised (withdraw today amount self) = Some e ->
      let s := state_of (withdraw today amount self) in
      ((amount <=? 0)%float = true \/ last_withdraw_date self = today -> s = self)
      /\ ((0 <? amount)%float = true \/ (amount <=? 0)%float = false ->
          last_withdraw_date self <> today ->
          s = mkAccount (number self) (owner self) (balance self)
                        (daily_limit self) today 0)).
Proof.
  repeat apply conj.
  - intros amount self e. rewrite deposit_eq.
    destruct (amount <=? 0)%float; [reflexivity | discriminate].
  - intros rate self e. rewrite apply_interest_eq.
    destruct (rate <? 0)%float; [reflexivity | discriminate].
  - intros today name i l self e. rewrite open_account_eq.
    destruct (negb _); [reflexivity|].
    destruct (i <? 0)%float; [reflexivity|].
    destruct (l <? 0)%float; [reflexivity | discriminate].
  - intros num self e. unfold close_account.
    destruct (_accounts self !! num) as [acc|]; [|reflexivity].
    destruct (negb (balance acc =? 0)%float); [reflexivity | discriminate].
  - intros today amount self e Hraised s.
    assert (Hs : (amount <=? 0)%float = true /\ s = self
                 \/ (amount <=? 0)%float = false /\ s = rolled today self).
    { subst s. revert Hraised. rewrite withdraw_eq.
      destruct (amount <=? 0)%float eqn:Hamt.
      - left. split; reflexivity.
      - right. split; [reflexivity|]. revert Hraised. cbv zeta.
        destruct (balance _ <? amount)%float; [reflexivity|].
        destruct ((0 <? _)%float && (_ <? amount)%float);
          [reflexivity | discriminate]. }
    split.
    + intros [Hle|Hday]; destruct Hs as [[_ ->]|[Hpos ->]]; try reflexivity.
      * congruence.
      * now apply rolled_same_day.
    + intros Hamt Hday.
      assert (Hpos : (amount <=? 0)%float = false)
        by (destruct Hamt as [H|H]; [now apply ltb_pos_not_leb | exact H]).
      destruct Hs as [[Hle _]|[_ ->]].
      * congruence.
      * now apply rolled_new_day.
Qed.

Lemma failure_leaves_state_witness :
  state_of (deposit 0 alice_spent) = alice_spent
  /\ state_of (apply_interest (-1) alice_spent) = alice_spent
  /\ state_of (open_account 0 (py "  ") 100 50 Bank_default) = Bank_default
  /\ state_of (close_account 7 Bank_default) = Bank_default
  /\ state_of (withdraw 0 20 alice_spent) = alice_spent
  /\ state_of (withdraw 1 100 alice_spent) = mkAccount 1001 (py "Alice") 60 50 1 0.
Proof.
  destruct failure_leaves_state as (Hdep & Hint & Hopen & Hclose & Hwd).
  repeat apply conj.
  - apply (Hdep 0%float alice_spent (ValueError DepositNotPositive)). reflexivity.
  - apply (Hint (-1)%float alice_spent (ValueError RateNegative)). reflexivity.
  - apply (Hopen 0 (py "  ") 100%float 50%float Bank_default
             (ValueError OwnerRequired)).
    reflexivity.
  - apply (Hclose 7 Bank_default (KeyError (AccountNotFound 7))). reflexivity.
  - apply (Hwd 0 20%float alice_spent
             (ValueError (DailyLimitExceeded (50 - 40)))).
    + reflexivity.
    + right. reflexivity.
  - apply (Hwd 1 100%float alice_spent (ValueError (InsufficientFunds 60))).
    + reflexivity.
    + left. reflexivity.
    + discriminate.
Defined.

(** ** Interest *)

(** C8, counterexample.  On a balance of 3 at rate 10 [apply_interest]
    returns 0.30000000000000004 and leaves a balance of 3.3: it
    multiplies the balance by [10 / 100], which binary64 rounds above a
    tenth.  The product of balance and rate divided by 100, [3 * 10 / 100],
    is 0.3 (written 0.29999999999999999 in full), another number. *)
Lemma apply_interest_divides_rate_first :
  apply_interest 10 (mkAccount 1001 (py "Alice") 3 0 0 0)
  = Ok 0.30000000000000004%float
       (mkAccount 1001 (py "Alice") 3.3 0 0 0)
  /\ (3 * 10 / 100)%float = 0.3%float
  /\ (0.30000000000000004 =? 3 * 10 / 100)%float = false
  /\ (3 * 10 / 100 <? 0.30000000000000004)%float = true.
Proof. repeat split; reflexivity. Qed.

(** C8, amended.  [apply_interest] raises exactly when
    [rate_percent < 0] holds, and then leaves the account alone.
    Otherwise it returns [interest = balance * (rate_percent / 100)],
    the rate divided by 100 first and each operation rounded to binary64,
    and sets the balance to [balance + interest]; no other field is read
    or written, so neither the limit, the amount withdrawn today nor the
    date plays a part.  At rate 10 on a balance of 40 it returns 4.0 and
    leaves a balance of 44.0. *)
Theorem apply_interest_spec :
  (forall rate self,
      (rate <? 0)%float = true
      <-> raised (apply_interest rate self) = Some (ValueError RateNegative))
  /\ (forall rate self,
      (rate <? 0)%float = true ->
      apply_interest rate self = Raise (ValueError RateNegative) self)
  /\ (forall rate self,
      (rate <? 0)%float = false ->
      let interest := (balance self * (rate / 100))%float in
      apply_interest rate self
      = Ok interest
           (mkAccount (number self) (owner self) (balance self + interest)
                      (daily_limit self) (last_withdraw_date self)
                      (withdrawn_today self)))
  /\ (forall num name limit day spent,
      apply_interest 10 (mkAccount num name 40 limit day spent)
      = Ok 4%float (mkAccount num name 44 limit day spent)).
Proof.
  repeat apply conj.
  - intros rate self. rewrite apply_interest_eq.
    destruct (rate <? 0)%float; cbn; split; congruence.
  - intros rate self Hneg. rewrite apply_interest_eq. now rewrite Hneg.
  - intros rate self Hpos. rewrite apply_interest_eq, Hpos. reflexivity.
  - reflexivity.
Qed.

Lemma apply_interest_spec_witness :
  apply_interest (-1) alice_spent = Raise (ValueError RateNegative) alice_spent
  /\ apply_interest 10 alice_spent
     = Ok (60 * (10 / 100))%float
          (mkAccount 1001 (py "Alice") (60 + 60 * (10 / 100)) 50 0 40).
Proof.
  destruct apply_interest_spec as (_ & Hneg & Hpos & _).
  split.
  - apply Hneg. reflexivity.
  - apply (Hpos 10%float alice_spent). reflexivity.
Defined.

(** ** Closing an account *)

(** C7.  [close_account(n)] raises [KeyError] (account not found) when [n]
    is not a key of the registry; raises [ValueError] (balance not zero)
    when the account's balance differs from 0, however little, that is
    when [balance == 0] fails; both leave the bank as it was.  Otherwise
    it returns the registered account and removes the key, so that
    [get(n)] finds nothing afterwards, while the other keys and [_next]
    stay. *)
Theorem close_account_spec num self :
  (get num self = None ->
     close_account num self = Raise (KeyError (AccountNotFound num)) self)
  /\ (forall acc,
        get num self = Some acc -> (balance acc =? 0)%float = false ->
        close_account num self = Raise (ValueError BalanceNotZero) self)
  /\ (forall acc,
        get num self = Some acc -> (balance acc =? 0)%float = true ->
        exists self',
          close_account num self = Ok acc self'
          /\ get num self' = None
          /\ (forall k, k <> num -> get k self' = get k self)
          /\ _accounts self' = delete num (_accounts self)
          /\ _next self' = _next self).
Proof.
  unfold get, close_account. repeat apply conj.
  - intros ->. reflexivity.
  - intros acc -> Hne. now rewrite Hne.
  - intros acc -> Hz. rewrite Hz.
    eexists. split; [reflexivity|]. cbn.
    split; [apply lookup_delete_eq|].
    split; [|split; reflexivity].
    intros k Hk. now apply lookup_delete_ne.
Qed.

Lemma close_account_spec_witness :
  close_account 7 bank_cent = Raise (KeyError (AccountNotFound 7)) bank_cent
  /\ close_account 1001 bank_cent = Raise (ValueError BalanceNotZero) bank_cent
  /\ exists self',
       close_account 1001 bank_zero
       = Ok (mkAccount 1001 (py "Alice") 0 50 0 44) self'
       /\ get 1001 self' = None.
Proof.
  split; [|split].
  - apply (close_account_spec 7 bank_cent). reflexivity.
  - destruct (close_account_spec 1001 bank_cent) as (_ & Hnz & _).
    apply (Hnz (mkAccount 1001 (py "Alice") 0.01 50 0 0)).
    + reflexivity.
    + reflexivity.
  - destruct (close_account_spec 1001 bank_zero) as (_ & _ & Hok).
    destruct (Hok (mkAccount 1001 (py "Alice") 0 50 0 44)) as (self' & H1 & H2 & _).
    + reflexivity.
    + reflexivity.
    + exists self'. split; assumption.
Defined.

(** ** What the calls keep *)

Lemma account_call_limit today c self :
  daily_limit (account_call today c self) = daily_limit self.
Proof.
  destruct c as [amount|amount|rate|]; cbn.
  - rewrite deposit_eq. destruct (amount <=? 0)%float; reflexivity.
  - rewrite withdraw_eq. destruct (amount <=? 0)%float; [reflexivity|]. cbv zeta.
    destruct (balance _ <? amount)%float; [apply rolled_frame|].
    destruct ((0 <? _)%float && (_ <? amount)%float); apply rolled_frame.
  - rewrite apply_interest_eq. destruct (rate <? 0)%float; reflexivity.
  - rewrite str_state. apply rolled_frame.
Qed.

Section AccountRuns.

Variable P : Account -> Prop.
Hypothesis P_call : forall today c self, P self -> P (account_call today c self).

Lemma account_run_preserves cs self : P self -> P (account_run cs self).
Proof.
  revert self. induction cs as [|[today c] cs IH]; intros self HP; cbn.
  - assumption.
  - apply IH, P_call, HP.
Qed.

End AccountRuns.

(** ** Invariants of the registered accounts *)

(** A call on a registered account, as a step of a history: the bank after
    the method, whether it returned or raised. *)
Lemma on_account_state today num self :
  (forall amount,
      state_of <$> on_account num (deposit amount) self
      = (fun _ => bank_call today (OnAccount num (Deposit amount)) self) <$> get num self)
  /\ (forall amount,
      state_of <$> on_account num (withdraw today amount) self
      = (fun _ => bank_call today (OnAccount num (Withdraw amount)) self) <$> get num self)
  /\ (forall rate,
      state_of <$> on_account num (apply_interest rate) self
      = (fun _ => bank_call today (OnAccount num (ApplyInterest rate)) self) <$> get num self)
  /\ state_of <$> on_account num (__str__ today) self
     = (fun _ => bank_call today (OnAccount num Str) self) <$> get num self.
Proof.
  unfold on_account. cbn.
  repeat split; intros; destruct (get num self) as [acc|]; cbn; try reflexivity.
  - now destruct (deposit _ acc).
  - now destruct (withdraw _ _ acc).
  - now destruct (apply_interest _ acc).
  - now destruct (__str__ _ acc).
Qed.

Lemma open_account_ok today name initial_deposit limit self acc self' :
  open_account today name initial_deposit limit self = Ok acc self' ->
  acc = mkAccount (_next self) (strip name)
          (if (0 <? initial_deposit)%float
           then (0 + initial_deposit)%float else 0%float)
          limit today 0
  /\ self' = mkBank (<[_next self := acc]> (_accounts self)) (_next self + 1)
  /\ str_truthy (strip name) = true
  /\ (initial_deposit <? 0)%float = false /\ (limit <? 0)%float = false.
Proof.
  rewrite open_account_eq.
  destruct (str_truthy (strip name)); [|discriminate]. cbn [negb].
  destruct (initial_deposit <? 0)%float eqn:Hi; [discriminate|].
  destruct (limit <? 0)%float eqn:Hl; [discriminate|].
  cbv zeta. intros [= <- <-]. repeat split.
Qed.

Lemma open_account_raise today name initial_deposit limit self e self' :
  open_account today name initial_deposit limit self = Raise e self' ->
  self' = self.
Proof.
  rewrite open_account_eq.
  destruct (negb _); [now intros [= _ <-]|].
  destruct (initial_deposit <? 0)%float; [now intros [= _ <-]|].
  destruct (limit <? 0)%float; [now intros [= _ <-] | discriminate].
Qed.

Lemma opened_withdrawn today name initial_deposit limit self acc self' :
  open_account today name initial_deposit limit self = Ok acc self' ->
  withdrawn_today acc = 0%float.
Proof. intros H. now apply open_account_ok in H as (-> & _). Qed.

Section BankRuns.

Variable P : Account -> Prop.
Hypothesis P_call : forall today c self, P self -> P (account_call today c self).
Hypothesis P_open :
  forall today name initial_deposit limit self acc self',
    open_account today name initial_deposit limit self = Ok acc self' -> P acc.

Lemma bank_call_preserves today c self :
  all_accounts P self -> all_accounts P (bank_call today c self).
Proof.
  unfold all_accounts, get. intros Hall n acc.
  destruct c as [name i l|num|num c]; cbn.
  - destruct (open_account today name i l self) as [a s|e s] eqn:Hopen; cbn.
    + pose proof (P_open _ _ _ _ _ _ _ Hopen) as Ha.
      apply open_account_ok in Hopen as (_ & -> & _). cbn.
      rewrite lookup_insert. case_decide.
      * now intros [= <-].
      * apply Hall.
    + apply open_account_raise in Hopen as ->. apply Hall.
  - unfold close_account.
    destruct (_accounts self !! num) as [a|] eqn:Hnum; cbn; [|apply Hall].
    destruct (negb (balance a =? 0)%float); cbn; [apply Hall|].
    rewrite lookup_delete. case_decide; [discriminate | apply Hall].
  - unfold get. destruct (_accounts self !! num) as [a|] eqn:Hnum; cbn; [|apply Hall].
    rewrite lookup_insert. case_decide.
    + intros [= <-]. eapply P_call, Hall, Hnum.
    + apply Hall.
Qed.

Lemma bank_run_preserves cs self :
  all_accounts P self -> all_accounts P (bank_run cs self).
Proof.
  revert self. induction cs as [|[today c] cs IH]; intros self Hall; cbn.
  - assumption.
  - apply IH, bank_call_preserves, Hall.
Qed.

Lemma bank_run_from_init start cs : all_accounts P (bank_run cs (Bank_init start)).
Proof. apply bank_run_preserves. intros n acc. unfold get. cbn. now rewrite lookup_empty. Qed.

End BankRuns.

(** ** Where the amounts leave the real numbers *)

(** C3, the code at its failing inputs.  [deposit(nan)] passes the test
    [amount <= 0], as every comparison with NaN is false, returns, and
    leaves a balance of NaN, for which [balance >= 0] is false.  The same
    balance is reached with finite amounts: on an account opened with
    1e308, [apply_interest(1e308)] returns infinity and leaves an
    infinite balance, and [apply_interest(0)] then returns NaN and leaves
    a balance of NaN. *)
Theorem balance_can_become_nan :
  (exists acc bank',
      open_account 0 (py "Alice") 100 0 Bank_default = Ok acc bank'
      /\ (0 <=? balance acc)%float = true
      /\ (nan <=? 0)%float = false
      /\ deposit nan acc = Ok tt (set_balance nan acc)
      /\ (0 <=? balance (state_of (deposit nan acc)))%float = false
      /\ get 1001 (bank_run history_nan_deposit Bank_default)
         = Some (set_balance nan acc))
  /\ (exists acc bank',
      open_account 0 (py "Alice") 1e308 0 Bank_default = Ok acc bank'
      /\ balance acc = 1e308%float
      /\ apply_interest 1e308 acc = Ok infinity (set_balance infinity acc)
      /\ apply_interest 0 (set_balance infinity acc)
         = Ok nan (set_balance nan acc)
      /\ (0 <=? nan)%float = false
      /\ get 1001 (bank_run history_overflow Bank_default)
         = Some (set_balance nan acc)).
Proof.
  split; eexists; eexists; (split; [vm_compute; reflexivity|]);
    vm_compute; repeat split; reflexivity.
Qed.

(** C10, the code at its failing input.  On an account with a limit of
    50, [withdraw(nan)] passes the three tests [amount <= 0],
    [amount > balance] and [amount > remaining], all false of NaN,
    returns, and leaves [withdrawn_today] (and the balance) NaN, for
    which [withdrawn_today >= 0] is false; the amount added is not above
    0. *)
Theorem withdrawn_today_can_become_nan :
  exists acc bank',
    open_account 0 (py "Alice") 100 50 Bank_default = Ok acc bank'
    /\ withdrawn_today acc = 0%float
    /\ (nan <=? 0)%float = false
    /\ (balance acc <? nan)%float = false
    /\ (daily_limit acc - withdrawn_today acc <? nan)%float = false
    /\ withdraw 0 nan acc = Ok tt (set_withdrawn_today nan (set_balance nan acc))
    /\ (0 <? nan)%float = false
    /\ (0 <=? withdrawn_today (state_of (withdraw 0 nan acc)))%float = false
    /\ get 1001 (bank_run [(0, Open (py "Alice") 100 50);
                           (0, OnAccount 1001 (Withdraw nan))] Bank_default)
       = Some (set_withdrawn_today nan (set_balance nan acc)).
Proof.
  eexists; eexists; (split; [vm_compute; reflexivity|]);
    vm_compute; repeat split; reflexivity.
Qed.

(** C4, the code at its failing input.  On an account with a limit of
    1.2, [withdraw(0.14)] and then [withdraw(1.06)] on the same day both
    return: the allowance left, [1.2 - 0.14], is rounded to
    1.0600000000000001, and 1.06 is not above it.  The counter is then
    [0.14 + 1.06], rounded to 1.2000000000000002, which is above the
    limit, while it was within the limit before the second call. *)
Theorem withdrawn_today_can_exceed_limit :
  exists acc bank' acc1 acc2,
    open_account 0 (py "Alice") 100 1.2 Bank_default = Ok acc bank'
    /\ withdraw 0 0.14 acc = Ok tt acc1
    /\ withdraw 0 1.06 acc1 = Ok tt acc2
    /\ within_limit acc /\ within_limit acc1
    /\ (0 <? daily_limit acc2)%float = true
    /\ daily_limit acc2 = 1.2%float
    /\ withdrawn_today acc2 = 1.2000000000000002%float
    /\ (withdrawn_today acc2 <=? daily_limit acc2)%float = false
    /\ ~ within_limit acc2
    /\ get 1001 (bank_run [(0, Open (py "Alice") 100 1.2);
                           (0, OnAccount 1001 (Withdraw 0.14));
                           (0, OnAccount 1001 (Withdraw 1.06))] Bank_default)
       = Some acc2.
Proof.
  do 4 eexists.
  split; [vm_compute; reflexivity|].
  split; [vm_compute; reflexivity|].
  split; [vm_compute; reflexivity|].
  unfold within_limit. cbn [daily_limit withdrawn_today].
  split; [reflexivity|]. split; [reflexivity|]. split; [reflexivity|].
  split; [reflexivity|]. split; [reflexivity|]. split; [reflexivity|].
  split; [|vm_compute; reflexivity].
  intros H. specialize (H eq_refl). discriminate H.
Qed.

(** ** Account numbers *)

Lemma issued_by_next today c self n :
  issued_by today c self = Some n ->
  n = _next self /\ _next (bank_call today c self) = _next self + 1.
Proof.
  destruct c as [name i l|num|num c]; cbn; try discriminate.
  destruct (open_account today name i l self) as [a s|e s] eqn:Hopen; cbn;
    [|discriminate].
  apply open_account_ok in Hopen as (-> & -> & _). cbn.
  intros [= <-]. split; reflexivity.
Qed.

Lemma not_issued_next today c self :
  issued_by today c self = None ->
  _next (bank_call today c self) = _next self.
Proof.
  destruct c as [name i l|num|num c]; cbn.
  - destruct (open_account today name i l self) as [a s|e s] eqn:Hopen; cbn;
      [discriminate|].
    apply open_account_raise in Hopen as ->. reflexivity.
  - intros _. unfold close_account.
    destruct (_accounts self !! num) as [a|]; [|reflexivity].
    destruct (negb (balance a =? 0)%float); reflexivity.
  - intros _. destruct (get num self); reflexivity.
Qed.

Lemma bank_call_next_le today c self :
  _next self <= _next (bank_call today c self).
Proof.
  destruct (issued_by today c self) as [n|] eqn:Hi.
  - apply issued_by_next in Hi as [_ ->]. lia.
  - rewrite (not_issued_next _ _ _ Hi). lia.
Qed.

Lemma bank_run_next_le cs self : _next self <= _next (bank_run cs self).
Proof.
  revert self. induction cs as [|[today c] cs IH]; intros self; cbn.
  - lia.
  - pose proof (bank_call_next_le today c self). specialize (IH (bank_call today c self)). lia.
Qed.

(** The keys after a call: those before, and the number issued, if any. *)
Lemma bank_call_dom today c self n :
  n ∈ dom (_accounts (bank_call today c self)) ->
  n ∈ dom (_accounts self) \/ issued_by today c self = Some n.
Proof.
  destruct c as [name i l|num|num c]; cbn.
  - destruct (open_account today name i l self) as [a s|e s] eqn:Hopen; cbn.
    + apply open_account_ok in Hopen as (-> & -> & _). cbn.
      rewrite dom_insert_L, elem_of_union, elem_of_singleton.
      intros [->|Hn]; [right; reflexivity | left; exact Hn].
    + apply open_account_raise in Hopen as ->. now left.
  - unfold close_account.
    destruct (_accounts self !! num) as [a|]; cbn; [|now left].
    destruct (negb (balance a =? 0)%float); cbn; [now left|].
    rewrite dom_delete_L, elem_of_difference. intros [Hn _]. now left.
  - destruct (get num self) as [a|] eqn:Hget; cbn; [|now left].
    rewrite dom_insert_L, elem_of_union, elem_of_singleton.
    intros [->|Hn]; left; [|exact Hn].
    apply elem_of_dom. unfold get in Hget. rewrite Hget. eauto.
Qed.

Lemma bank_call_keys_below today c self :
  keys_below_next self -> keys_below_next (bank_call today c self).
Proof.
  intros Hinv n Hn. apply bank_call_dom in Hn as [Hn|Hn].
  - pose proof (bank_call_next_le today c self). specialize (Hinv n Hn). lia.
  - apply issued_by_next in Hn as [-> ->]. lia.
Qed.

Lemma keys_seen_below cs self n :
  keys_below_next self ->
  n ∈ keys_seen cs self -> n < _next (bank_run cs self).
Proof.
  revert self. induction cs as [|[today c] cs IH]; intros self Hinv; cbn.
  - apply Hinv.
  - rewrite elem_of_union. intros [Hn|Hn].
    + specialize (Hinv n Hn).
      pose proof (bank_call_next_le today c self).
      pose proof (bank_run_next_le cs (bank_call today c self)). lia.
    + apply IH; [apply bank_call_keys_below, Hinv | exact Hn].
Qed.

Lemma issued_ge cs self :
  Forall (fun n => _next self <= n) (issued cs self).
Proof.
  revert self. induction cs as [|[today c] cs IH]; intros self; cbn.
  - constructor.
  - specialize (IH (bank_call today c self)).
    pose proof (bank_call_next_le today c self) as Hle.
    assert (Hrest : Forall (fun n => _next self <= n)
                           (issued cs (bank_call today c self)))
      by (eapply Forall_impl; [exact IH | cbn; intros; lia]).
    destruct (issued_by today c self) as [m|] eqn:Hi; [|exact Hrest].
    constructor; [|exact Hrest].
    apply issued_by_next in Hi as [-> _]. lia.
Qed.

Lemma issued_sorted cs self : StronglySorted Z.lt (issued cs self).
Proof.
  revert self. induction cs as [|[today c] cs IH]; intros self; cbn.
  - constructor.
  - destruct (issued_by today c self) as [m|] eqn:Hi; [|apply IH].
    constructor; [apply IH|].
    apply issued_by_next in Hi as [-> Hnext].
    eapply Forall_impl; [apply issued_ge|]. cbn. intros n Hn. lia.
Qed.

(** A number below [_next] that is not a key never becomes one. *)
Lemma absent_stays_absent cs self n :
  n < _next self -> n ∉ dom (_accounts self) ->
  n ∉ dom (_accounts (bank_run cs self)).
Proof.
  revert self. induction cs as [|[today c] cs IH]; intros self Hlt Hn; cbn.
  - exact Hn.
  - apply IH.
    + pose proof (bank_call_next_le today c self). lia.
    + intros Hin. apply bank_call_dom in Hin as [Hin|Hin]; [now apply Hn|].
      apply issued_by_next in Hin as [-> _]. lia.
Qed.

Lemma bank_run_keys_below cs self :
  keys_below_next self -> keys_below_next (bank_run cs self).
Proof.
  revert self. induction cs as [|[today c] cs IH]; intros self Hinv; cbn.
  - exact Hinv.
  - apply IH, bank_call_keys_below, Hinv.
Qed.

Lemma init_keys_below start : keys_below_next (Bank_init start).
Proof. intros n. cbn. rewrite dom_empty_L. intros Hn. now apply not_elem_of_empty in Hn. Qed.

Lemma close_account_ok num self acc self' :
  close_account num self = Ok acc self' ->
  _accounts self !! num = Some acc
  /\ self' = mkBank (delete num (_accounts self)) (_next self).
Proof.
  unfold close_account.
  destruct (_accounts self !! num) as [a|]; [|discriminate].
  destruct (negb (balance a =? 0)%float); [discriminate|].
  intros [= <- <-]. split; reflexivity.
Qed.

(** C5.  In every history of calls on a bank that started empty: the
    numbers issued by the returning [open_account] calls are strictly
    increasing; [_next] is above every key the registry has held at any
    point; once [close_account] has removed a number, no later call
    issues it, and it is never a key again; and a raising [open_account]
    leaves [_next] where it was, so that it issues nothing and the
    numbers issued after it are those issued without it. *)
Theorem account_numbers_increase :
  (forall start cs, StronglySorted Z.lt (issued cs (Bank_init start)))
  /\ (forall start cs n,
      n ∈ keys_seen cs (Bank_init start) ->
      n < _next (bank_run cs (Bank_init start)))
  /\ (forall start pre num acc bank' post,
      close_account num (bank_run pre (Bank_init start)) = Ok acc bank' ->
      (num ∉ issued post bank') /\ get num (bank_run post bank') = None)
  /\ (forall today name initial_deposit limit self e self',
      open_account today name initial_deposit limit self = Raise e self' ->
      _next self' = _next self
      /\ forall cs,
           issued ((today, Open name initial_deposit limit) :: cs) self
           = issued cs self).
Proof.
  split; [|split; [|split]].
  - intros start cs. apply issued_sorted.
  - intros start cs n. apply keys_seen_below, init_keys_below.
  - intros start pre num acc bank' post Hclose.
    apply close_account_ok in Hclose as [Hnum ->].
    pose proof (bank_run_keys_below pre _ (init_keys_below start) num) as Hlt.
    assert (Hdom : num ∈ dom (_accounts (bank_run pre (Bank_init start))))
      by (apply elem_of_dom; eauto).
    specialize (Hlt Hdom). split.
    + intros Hin.
      pose proof (issued_ge post
        (mkBank (delete num (_accounts (bank_run pre (Bank_init start))))
                (_next (bank_run pre (Bank_init start))))) as Hge.
      rewrite Forall_forall in Hge. specialize (Hge num Hin). cbn in Hge. lia.
    + unfold get. apply not_elem_of_dom, absent_stays_absent; cbn.
      * exact Hlt.
      * rewrite dom_delete_L, elem_of_difference, elem_of_singleton.
        intros [_ Hne]. now apply Hne.
  - intros today name i l self e self' Hopen. split.
    + apply open_account_raise in Hopen as ->. reflexivity.
    + intros cs. cbn. rewrite Hopen. cbn.
      apply open_account_raise in Hopen as ->. reflexivity.
Qed.

Example issued_history_numbers :
  issued history_numbers Bank_default = [1001; 1002; 1003].
Proof. reflexivity. Qed.

Lemma account_numbers_increase_witness :
  1002 < _next (bank_run history_numbers Bank_default)
  /\ ((1001 ∉ issued [(1, Open (py "Carol") (-1) 0); (2, Open (py "Dave") 0 0)]
                (state_of (close_account 1001
                             (bank_run (take 3 history_numbers) Bank_default))))
      /\ get 1001 (bank_run (drop 3 history_numbers)
                     (bank_run (take 3 history_numbers) Bank_default)) = None)
  /\ _next (state_of (open_account 0 (py "") 5 5 Bank_default)) = _next Bank_default.
Proof.
  destruct account_numbers_increase as (_ & Hkeys & Hclose & Hopen).
  split; [|split].
  - apply (Hkeys 1001 history_numbers 1002). vm_compute. reflexivity.
  - destruct (Hclose 1001 (take 3 history_numbers) 1001
                (mkAccount 1001 (py "Alice") 0 0 0 0)
                (state_of (close_account 1001
                             (bank_run (take 3 history_numbers) Bank_default)))
                [(1, Open (py "Carol") (-1) 0); (2, Open (py "Dave") 0 0)]) as [H1 H2].
    + reflexivity.
    + split; [exact H1 | exact H2].
  - apply (Hopen 0 (py "") 5%float 5%float Bank_default (ValueError OwnerRequired)
             (state_of (open_account 0 (py "") 5 5 Bank_default))).
    reflexivity.
Defined.

(** ** The snapshot of the registry *)

Module ObjectStoreFacts.
Import ObjectStore.

Lemma dict_op_other l l' op h :
  l <> l' -> dict_objs (dict_op l op h) !! l' = dict_objs h !! l'.
Proof.
  intros Hne. unfold dict_op.
  destruct (dict_objs h !! l); cbn; [|reflexivity].
  now apply lookup_insert_ne.
Qed.

Lemma dict_op_accounts l op h : account_objs (dict_op l op h) = account_objs h.
Proof. unfold dict_op. destruct (dict_objs h !! l); reflexivity. Qed.

Lemma dict_ops_other l l' ops h :
  l <> l' -> dict_objs (dict_ops l ops h) !! l' = dict_objs h !! l'.
Proof.
  intros Hne. unfold dict_ops. revert h.
  induction ops as [|op ops IH]; intros h; cbn.
  - reflexivity.
  - rewrite IH. now apply dict_op_other.
Qed.

Lemma dict_ops_accounts l ops h : account_objs (dict_ops l ops h) = account_objs h.
Proof.
  unfold dict_ops. revert h. induction ops as [|op ops IH]; intros h; cbn.
  - reflexivity.
  - rewrite IH. apply dict_op_accounts.
Qed.

(** The view of a bank depends on its own dict and on the accounts only. *)
Lemma bank_view_ext self h1 h2 :
  dict_objs h1 !! _accounts_ref self = dict_objs h2 !! _accounts_ref self ->
  account_objs h1 = account_objs h2 ->
  bank_view self h1 = bank_view self h2.
Proof.
  intros Hd Ha. unfold bank_view, dict_at, resolve. now rewrite Hd, Ha.
Qed.

Lemma dict_copy_spec l h l' h' :
  dict_copy l h = (l', h') ->
  (l' ∉ dom (dict_objs h))
  /\ account_objs h' = account_objs h
  /\ dict_objs h' = <[l' := dict_at l h]> (dict_objs h).
Proof.
  unfold dict_copy. intros [= <- <-]. cbn.
  split; [apply is_fresh | split; reflexivity].
Qed.

End ObjectStoreFacts.

(** C9.  In a store that holds the bank's registry, [list_accounts]
    returns a dict object other than the registry, with the registry's
    entries (the same numbers mapped to the same accounts); it changes
    nothing the bank sees; and whatever entries a caller then sets,
    deletes, pops or clears in the returned dict, the registry of the
    bank, its accounts and so the bank as a whole stay as they were. *)
Theorem list_accounts_snapshot
    (self : ObjectStore.BankObj) (h : ObjectStore.Heap) l h' :
  ObjectStore._accounts_ref self ∈ dom (ObjectStore.dict_objs h) ->
  ObjectStore.list_accounts self h = (l, h') ->
  l <> ObjectStore._accounts_ref self
  /\ ObjectStore.dict_at l h'
     = ObjectStore.dict_at (ObjectStore._accounts_ref self) h
  /\ ObjectStore.resolve h' (ObjectStore.dict_at l h')
     = _accounts (ObjectStore.bank_view self h)
  /\ ObjectStore.bank_view self h' = ObjectStore.bank_view self h
  /\ forall ops,
       ObjectStore.dict_at (ObjectStore._accounts_ref self)
                           (ObjectStore.dict_ops l ops h')
       = ObjectStore.dict_at (ObjectStore._accounts_ref self) h
       /\ ObjectStore.account_objs (ObjectStore.dict_ops l ops h')
          = ObjectStore.account_objs h
       /\ ObjectStore.bank_view self (ObjectStore.dict_ops l ops h')
          = ObjectStore.bank_view self h.
Proof.
  intros Hreg Hcopy. unfold ObjectStore.list_accounts in Hcopy.
  apply ObjectStoreFacts.dict_copy_spec in Hcopy as (Hfresh & Hacc & Hdict).
  assert (Hne : l <> ObjectStore._accounts_ref self)
    by (intros ->; exact (Hfresh Hreg)).
  assert (Hsame : ObjectStore.dict_objs h' !! ObjectStore._accounts_ref self
                  = ObjectStore.dict_objs h !! ObjectStore._accounts_ref self)
    by (rewrite Hdict; now apply lookup_insert_ne).
  assert (Hl : ObjectStore.dict_at l h'
               = ObjectStore.dict_at (ObjectStore._accounts_ref self) h)
    by (unfold ObjectStore.dict_at at 1; rewrite Hdict, lookup_insert_eq;
        reflexivity).
  split; [exact Hne|]. split; [exact Hl|]. split.
  { rewrite Hl. cbn. unfold ObjectStore.resolve. now rewrite Hacc. }
  split.
  { now apply ObjectStoreFacts.bank_view_ext. }
  intros ops.
  assert (Hops : ObjectStore.dict_objs (ObjectStore.dict_ops l ops h')
                   !! ObjectStore._accounts_ref self
                 = ObjectStore.dict_objs h !! ObjectStore._accounts_ref self)
    by (rewrite ObjectStoreFacts.dict_ops_other by exact Hne; exact Hsame).
  assert (Haccs : ObjectStore.account_objs (ObjectStore.dict_ops l ops h')
                  = ObjectStore.account_objs h)
    by (rewrite ObjectStoreFacts.dict_ops_accounts; exact Hacc).
  split; [|split].
  - unfold ObjectStore.dict_at. now rewrite Hops.
  - exact Haccs.
  - now apply ObjectStoreFacts.bank_view_ext.
Qed.

Lemma list_accounts_snapshot_witness :
  let snap := ObjectStore.list_accounts bank_obj1 heap1 in
  snap.1 <> 3%positive
  /\ ObjectStore.dict_at snap.1 snap.2 = {[ 1001 := 1%positive; 1002 := 2%positive ]}
  /\ ObjectStore.bank_view bank_obj1
       (ObjectStore.dict_ops snap.1
          [ObjectStore.DelItem 1001; ObjectStore.SetItem 7 2%positive;
           ObjectStore.Clear] snap.2)
     = ObjectStore.bank_view bank_obj1 heap1.
Proof.
  intros snap.
  destruct (list_accounts_snapshot bank_obj1 heap1 snap.1 snap.2)
    as (Hne & Hl & _ & _ & Hops).
  - vm_compute. reflexivity.
  - reflexivity.
  - split; [exact Hne|]. split; [exact Hl|]. apply Hops.
Defined.

(** The copy is shallow: the accounts the returned dict maps to are the
    bank's own objects, so a method run on one of them is seen by the
    bank. *)
Example snapshot_shares_accounts :
  let snap := ObjectStore.list_accounts bank_obj1 heap1 in
  ObjectStore.dict_at snap.1 snap.2 !! 1001 = Some 1%positive
  /\ get 1001 (ObjectStore.bank_view bank_obj1
                 (ObjectStore.account_op 1 (account_call 0 (Withdraw 40)) snap.2))
     = Some (mkAccount 1001 (py "Alice") (100 - 40) 50 0 (0 + 40)).
Proof. vm_compute. split; reflexivity. Qed.

(** * Further properties of the code *)

(** ** Comparisons with zero and with NaN *)

Lemma leb_0_not_ltb (a : float) :
  (a <=? 0)%float = true -> (0 <? a)%float = false.
Proof.
  rewrite ltb_spec, leb_spec. unfold SFltb, SFleb.
  change (Prim2SF 0) with (S754_zero false).
  destruct (Prim2SF a) as [s|s| |s m e]; cbn; try discriminate;
    destruct s; cbn; try discriminate; reflexivity.
Qed.

(** Nothing is below NaN, and NaN is below nothing. *)
Lemma ltb_nan_r (a : float) : (a <? nan)%float = false.
Proof.
  rewrite ltb_spec. unfold SFltb.
  change (Prim2SF nan) with S754_nan.
  destruct (Prim2SF a) as [s|s| |s m e]; reflexivity.
Qed.

(** Adding a positive amount to zero gives the amount. *)
Lemma add_0_pos (a : float) : (0 <? a)%float = true -> (0 + a)%float = a.
Proof.
  intros Ha. apply Prim2SF_inj. rewrite add_spec.
  revert Ha. rewrite ltb_spec. unfold SFltb, SF64add.
  change (Prim2SF 0) with (S754_zero false).
  destruct (Prim2SF a) as [s|s| |s m e]; cbn; try discriminate; reflexivity.
Qed.

(** ** When [withdraw] returns *)

(** X1.  [withdraw] returns exactly when its three tests fail: the amount
    is not [<= 0], not above the balance and, with a limit set, not above
    what is left of it after the rollover.  Every comparison with NaN
    fails, so a withdrawal of NaN always returns. *)
Theorem withdraw_returns_iff today amount self :
  let r := rolled today self in
  ((exists self', withdraw today amount self = Ok tt self')
   <-> (amount <=? 0)%float = false /\ (balance self <? amount)%float = false
       /\ ((0 <? daily_limit self)%float = true ->
           (daily_limit self - withdrawn_today r <? amount)%float = false))
  /\ exists self', withdraw today nan self = Ok tt self'.
Proof.
  cbv zeta. rewrite !withdraw_eq. cbv zeta.
  destruct (rolled_frame today self) as (_ & _ & Hb & Hl). rewrite Hb, Hl.
  split.
  - destruct (amount <=? 0)%float eqn:Hamt.
    { split; [intros [s' Hs']; discriminate Hs' | intros (H & _); discriminate H]. }
    destruct (balance self <? amount)%float eqn:Hfunds.
    { split; [intros [s' Hs']; discriminate Hs' | intros (_ & H & _); discriminate H]. }
    destruct (0 <? daily_limit self)%float eqn:Hlim; cbn [andb].
    + destruct (daily_limit self - withdrawn_today (rolled today self) <? amount)%float
        eqn:Hrem.
      * split; [intros [s' Hs']; discriminate Hs'|].
        intros (_ & _ & Hin). specialize (Hin eq_refl). discriminate Hin.
      * split; [|eauto]. intros _. repeat split.
    + split; [|eauto]. intros _. split; [reflexivity|]. split; [reflexivity|].
      discriminate.
  - change (nan <=? 0)%float with false. rewrite !ltb_nan_r, andb_false_r. eauto.
Qed.

Lemma withdraw_returns_iff_witness :
  exists self', withdraw 1 50 alice_spent = Ok tt self'.
Proof.
  apply (withdraw_returns_iff 1 50 alice_spent).
  split; [reflexivity|]. split; [reflexivity|]. intros _. reflexivity.
Defined.

(** ** The errors each operation raises *)

(** X3.  [deposit], [withdraw], [apply_interest] and [open_account] raise
    [ValueError] only, each with its own messages; [withdraw] reports the
    balance, or what is left of the limit after the rollover.
    [close_account] raises [KeyError] exactly for a number that is not
    registered, and otherwise only the [ValueError] for a balance that is
    not zero. *)
Theorem raised_errors :
  (forall amount self e,
      raised (deposit amount self) = Some e -> e = ValueError DepositNotPositive)
  /\ (forall today amount self e,
      raised (withdraw today amount self) = Some e ->
      e = ValueError WithdrawalNotPositive
      \/ e = ValueError (InsufficientFunds (balance self))
      \/ e = ValueError (DailyLimitExceeded
                          (daily_limit self - withdrawn_today (rolled today self))%float))
  /\ (forall rate self e,
      raised (apply_interest rate self) = Some e -> e = ValueError RateNegative)
  /\ (forall today name initial_deposit limit self e,
      raised (open_account today name initial_deposit limit self) = Some e ->
      e = ValueError OwnerRequired
      \/ e = ValueError InitialDepositNegative
      \/ e = ValueError DailyLimitNegative)
  /\ (forall num self e,
      raised (close_account num self) = Some e ->
      get num self = None /\ e = KeyError (AccountNotFound num)
      \/ is_Some (get num self) /\ e = ValueError BalanceNotZero).
Proof.
  split; [|split; [|split; [|split]]].
  - intros amount self e. rewrite deposit_eq.
    destruct (amount <=? 0)%float; cbn; congruence.
  - intros today amount self e. rewrite withdraw_eq.
    destruct (rolled_frame today self) as (_ & _ & Hb & Hl).
    destruct (amount <=? 0)%float; cbn; [intros [= <-]; now left|].
    destruct (balance _ <? amount)%float; cbn.
    { intros [= <-]. right. left. now rewrite Hb. }
    destruct ((0 <? _)%float && (_ <? amount)%float); cbn; [|discriminate].
    intros [= <-]. right. right. now rewrite Hl.
  - intros rate self e. rewrite apply_interest_eq.
    destruct (rate <? 0)%float; cbn; congruence.
  - intros today name i l self e. rewrite open_account_eq.
    destruct (negb _); cbn; [intros [= <-]; now left|].
    destruct (i <? 0)%float; cbn; [intros [= <-]; right; now left|].
    destruct (l <? 0)%float; cbn; [intros [= <-]; right; now right | discriminate].
  - intros num self e. unfold close_account, get.
    destruct (_accounts self !! num) as [acc|]; cbn.
    + destruct (negb (balance acc =? 0)%float); cbn; [|discriminate].
      intros [= <-]. right. split; [eauto | reflexivity].
    + intros [= <-]. left. split; reflexivity.
Qed.

Lemma raised_errors_witness :
  ValueError (DailyLimitExceeded (50 - 40))
  = ValueError (DailyLimitExceeded
                  (daily_limit alice_spent - withdrawn_today (rolled 0 alice_spent)))
  /\ is_Some (get 1001 bank_cent).
Proof.
  destruct raised_errors as (_ & Hwd & _ & _ & Hclose).
  split.
  - destruct (Hwd 0 20%float alice_spent (ValueError (DailyLimitExceeded (50 - 40))))
      as [H|[H|H]]; [reflexivity | discriminate H | discriminate H | exact H].
  - destruct (Hclose 1001 bank_cent (ValueError BalanceNotZero))
      as [[_ H]|[H _]]; [reflexivity | discriminate H | exact H].
Defined.
(** ** What a call never changes *)

Lemma account_call_frame today c self :
  number (account_call today c self) = number self
  /\ owner (account_call today c self) = owner self
  /\ daily_limit (account_call today c self) = daily_limit self.
Proof.
  split; [|split; [|apply account_call_limit]].
  - destruct c as [amount|amount|rate|]; cbn.
    + rewrite deposit_eq. now destruct (amount <=? 0)%float.
    + rewrite withdraw_eq. destruct (amount <=? 0)%float; [reflexivity|]. cbv zeta.
      destruct (balance _ <? amount)%float; [apply rolled_frame|].
      destruct ((0 <? _)%float && (_ <? amount)%float); apply rolled_frame.
    + rewrite apply_interest_eq. now destruct (rate <? 0)%float.
    + rewrite str_state. apply rolled_frame.
  - destruct c as [amount|amount|rate|]; cbn.
    + rewrite deposit_eq. now destruct (amount <=? 0)%float.
    + rewrite withdraw_eq. destruct (amount <=? 0)%float; [reflexivity|]. cbv zeta.
      destruct (balance _ <? amount)%float; [apply rolled_frame|].
      destruct ((0 <? _)%float && (_ <? amount)%float); apply rolled_frame.
    + rewrite apply_interest_eq. now destruct (rate <? 0)%float.
    + rewrite str_state. apply rolled_frame.
Qed.

Lemma bank_call_identity today c self n a a' :
  keys_below_next self ->
  get n self = Some a -> get n (bank_call today c self) = Some a' ->
  same_identity a' a.
Proof.
  unfold get. intros Hinv Hn.
  assert (Hlt : n < _next self) by (apply Hinv, elem_of_dom; eauto).
  destruct c as [name i l|num|num c]; cbn.
  - destruct (open_account today name i l self) as [acc s|e s] eqn:Hopen; cbn.
    + apply open_account_ok in Hopen as (_ & -> & _). cbn.
      rewrite lookup_insert_ne by lia. rewrite Hn. intros [= <-].
      repeat split.
    + apply open_account_raise in Hopen as ->. rewrite Hn. intros [= <-].
      repeat split.
  - unfold close_account.
    destruct (_accounts self !! num) as [acc|] eqn:Hnum; cbn.
    + destruct (negb (balance acc =? 0)%float); cbn.
      * rewrite Hn. intros [= <-]. repeat split.
      * rewrite lookup_delete. case_decide; [discriminate|].
        rewrite Hn. intros [= <-]. repeat split.
    + rewrite Hn. intros [= <-]. repeat split.
  - unfold get. destruct (_accounts self !! num) as [acc|] eqn:Hnum; cbn.
    + rewrite lookup_insert. case_decide.
      * subst num. intros [= <-]. rewrite Hn in Hnum. injection Hnum as <-.
        apply account_call_frame.
      * rewrite Hn. intros [= <-]. repeat split.
    + rewrite Hn. intros [= <-]. repeat split.
Qed.

(** X6.  The number, the owner and the daily limit of an account never
    change: not through any history of calls on the account, and, in a
    bank whose keys are below [_next] (as they are from [Bank()] on), not
    through any history of calls on the bank, for as long as the number is
    registered. *)
Theorem identity_is_fixed :
  (forall cs self, same_identity (account_run cs self) self)
  /\ (forall cs self n a a',
      keys_below_next self ->
      get n self = Some a -> get n (bank_run cs self) = Some a' ->
      same_identity a' a).
Proof.
  split.
  - intros cs self.
    apply (account_run_preserves (fun a => same_identity a self)).
    + intros t c a (Hn & Ho & Hl).
      destruct (account_call_frame t c a) as (Hn' & Ho' & Hl').
      repeat split; congruence.
    + repeat split.
  - induction cs as [|[t c] cs IH]; intros self n a a' Hinv Hn; cbn.
    + rewrite Hn. intros [= <-]. repeat split.
    + intros Hend.
      destruct (get n (bank_call t c self)) as [a1|] eqn:Hmid.
      * pose proof (bank_call_identity t c self n a a1 Hinv Hn Hmid)
          as (Hn1 & Ho1 & Hl1).
        destruct (IH (bank_call t c self) n a1 a'
                     (bank_call_keys_below t c self Hinv) Hmid Hend)
          as (Hn2 & Ho2 & Hl2).
        repeat split; congruence.
      * exfalso.
        assert (Hlt : n < _next self)
          by (apply Hinv, elem_of_dom; unfold get in Hn; eauto).
        pose proof (bank_call_next_le t c self) as Hle.
        assert (Habs : n ∉ dom (_accounts (bank_run cs (bank_call t c self)))).
        { apply absent_stays_absent; [lia|].
          now apply not_elem_of_dom. }
        apply Habs, elem_of_dom. unfold get in Hend. eauto.
Qed.

Lemma identity_is_fixed_witness :
  exists a', get 1001 (bank_run history_bank Bank_default) = Some a'
             /\ same_identity a' (mkAccount 1001 (py "Alice") 100 50 0 0).
Proof.
  destruct identity_is_fixed as [_ Hbank].
  eexists. split; [reflexivity|].
  apply (Hbank (tl history_bank)
               (state_of (open_account 0 (py " Alice ") 100 50 Bank_default)) 1001).
  - apply (bank_call_keys_below 0 (Open (py " Alice ") 100 50) Bank_default),
      init_keys_below.
  - reflexivity.
  - reflexivity.
Defined.

(** ** The answer taken for a yes *)

(** What [lower] turns into "y": "y" or "Y", and nothing else. *)
Lemma lower_is_y s :
  str_eqb (lower s) (py "y") = true <-> s = py "y" \/ s = py "Y".
Proof.
  rewrite str_eqb_eq.
  change (py "y") with [121%N]. change (py "Y") with [89%N].
  destruct s as [|c [|c' s']]; cbn.
  - split; [discriminate | intros [H|H]; discriminate H].
  - unfold lower_char. split.
    + intros [= H]. destruct ((65 <=? c) && (c <=? 90))%N.
      * right. f_equal. lia.
      * left. now subst.
    + intros [[= ->]|[= ->]]; reflexivity.
  - split; [discriminate | intros [H|H]; discriminate H].
Qed.

(** ** Opening an account *)

Lemma rstrip_cons c t :
  is_space c = false -> rstrip (c :: t) = c :: rstrip t.
Proof. intros Hc. cbn. rewrite Hc. now destruct (rstrip t). Qed.

Lemma rstrip_idem s : rstrip (rstrip s) = rstrip s.
Proof.
  induction s as [|c s IH]; [reflexivity|]. cbn.
  destruct (rstrip s) as [|c' r] eqn:Hr.
  - destruct (is_space c) eqn:Hc; [reflexivity|]. cbn. now rewrite Hc.
  - cbn. cbn in IH. rewrite IH. reflexivity.
Qed.

Lemma lstrip_head s :
  match lstrip s with
  | [] => True
  | c :: _ => is_space c = false
  end.
Proof.
  induction s as [|c s IH]; cbn; [exact I|].
  destruct (is_space c) eqn:Hc; [exact IH | exact Hc].
Qed.

Lemma strip_idem s : strip (strip s) = strip s.
Proof.
  unfold strip. pose proof (lstrip_head s) as Hh.
  destruct (lstrip s) as [|c t]; [reflexivity|].
  rewrite (rstrip_cons c t Hh). cbn [lstrip]. rewrite Hh.
  rewrite (rstrip_cons c _ Hh). now rewrite rstrip_idem.
Qed.

(** A name of white space only, Unicode's included, is trimmed to the
    empty string. *)
Lemma strip_spaces s : forallb is_space s = true -> strip s = [].
Proof.
  unfold strip. induction s as [|c s IH]; cbn; [reflexivity|].
  rewrite andb_true_iff. intros [Hc Hs]. rewrite Hc. now apply IH.
Qed.

(** X7.  [open_account] returns exactly when the trimmed owner is not
    empty and neither [initial_deposit < 0] nor [daily_limit < 0] holds,
    so also when either is NaN; an owner of white space only, such as a
    no-break space, is refused.  The account it returns has the bank's
    next number, the trimmed owner, the given limit, today as
    [last_withdraw_date] and nothing withdrawn; its balance is the
    initial deposit when that is above 0, and 0 otherwise.  [get] finds
    it under its number, the other numbers are as before, and [_next] is
    one more. *)
Theorem open_account_spec today name initial_deposit limit self :
  ((exists acc self',
       open_account today name initial_deposit limit self = Ok acc self')
   <-> strip name <> []
       /\ (initial_deposit <? 0)%float = false /\ (limit <? 0)%float = false)
  /\ (forallb is_space name = true ->
      open_account today name initial_deposit limit self
      = Raise (ValueError OwnerRequired) self)
  /\ (forall acc self',
      open_account today name initial_deposit limit self = Ok acc self' ->
      number acc = _next self
      /\ owner acc = strip name
      /\ balance acc = (if (0 <? initial_deposit)%float
                        then initial_deposit else 0%float)
      /\ daily_limit acc = limit
      /\ last_withdraw_date acc = today
      /\ withdrawn_today acc = 0%float
      /\ get (number acc) self' = Some acc
      /\ (forall k, k <> number acc -> get k self' = get k self)
      /\ _next self' = _next self + 1).
Proof.
  split; [|split].
  - rewrite open_account_eq. split.
    + intros (acc & self' & Hopen). revert Hopen.
      destruct (strip name) eqn:Hname; cbn; [discriminate|].
      destruct (initial_deposit <? 0)%float eqn:Hi; [discriminate|].
      destruct (limit <? 0)%float eqn:Hl; [discriminate|]. intros _.
      split; [discriminate|]. split; reflexivity.
    + intros (Hname & Hi & Hl).
      destruct (strip name) eqn:Hs; [now contradict Hname|]. cbn.
      rewrite Hi, Hl. eauto.
  - intros Hsp. rewrite open_account_eq, (strip_spaces _ Hsp). reflexivity.
  - intros acc self' Hopen.
    apply open_account_ok in Hopen as (Hacc & -> & _).
    unfold get. cbn. rewrite Hacc at 1 2 3 4 5 6. cbn.
    split; [reflexivity|]. split; [reflexivity|].
    split; [destruct (0 <? initial_deposit)%float eqn:Hpos;
            [now apply add_0_pos | reflexivity]|].
    split; [reflexivity|]. split; [reflexivity|]. split; [reflexivity|].
    split; [rewrite Hacc at 1; cbn; apply lookup_insert_eq|].
    split; [|reflexivity].
    intros k Hk. rewrite Hacc in Hk. cbn in Hk.
    apply lookup_insert_ne. congruence.
Qed.

Lemma open_account_spec_witness :
  (exists acc self', open_account 3 (py " Bob ") nan nan bank_cent = Ok acc self')
  /\ open_account 3 [160%N; 8195%N] 5 0 bank_cent
     = Raise (ValueError OwnerRequired) bank_cent
  /\ get 1002 (state_of (open_account 3 (py " Bob ") 0 0 bank_cent))
     = Some (mkAccount 1002 (py "Bob") 0 0 3 0).
Proof.
  destruct (open_account_spec 3 (py " Bob ") nan nan bank_cent) as (Hiff & _).
  destruct (open_account_spec 3 [160%N; 8195%N] 5 0 bank_cent) as (_ & Hsp & _).
  destruct (open_account_spec 3 (py " Bob ") 0 0 bank_cent) as (_ & _ & Hok).
  split; [|split].
  - apply Hiff. split; [discriminate|]. split; reflexivity.
  - apply Hsp. reflexivity.
  - destruct (Hok (mkAccount 1002 (py "Bob") 0 0 3 0)
                  (state_of (open_account 3 (py " Bob ") 0 0 bank_cent)))
      as (_ & _ & _ & _ & _ & _ & Hget & _).
    + reflexivity.
    + exact Hget.
Defined.

(** X8.  In a bank whose keys are below [_next], as they are from
    [Bank()] on, the number [open_account] takes is free: every account
    registered before is still registered, unchanged, and the registry
    has exactly one key more. *)
Theorem open_account_keeps_accounts today name initial_deposit limit self acc self' :
  keys_below_next self ->
  open_account today name initial_deposit limit self = Ok acc self' ->
  get (number acc) self = None
  /\ (forall k a, get k self = Some a -> get k self' = Some a)
  /\ dom (_accounts self') = {[ number acc ]} ∪ dom (_accounts self)
  /\ size (_accounts self') = S (size (_accounts self)).
Proof.
  intros Hinv Hopen.
  apply open_account_ok in Hopen as (Hacc & -> & _).
  assert (Hnum : number acc = _next self) by (rewrite Hacc; reflexivity).
  assert (Hfree : _accounts self !! _next self = None).
  { apply not_elem_of_dom. intros Hin. specialize (Hinv _ Hin). lia. }
  unfold get. cbn. rewrite Hnum.
  split; [exact Hfree|]. split; [|split].
  - intros k a Hk. rewrite lookup_insert_ne; [exact Hk|].
    intros <-. rewrite Hfree in Hk. discriminate.
  - apply dom_insert_L.
  - now apply map_size_insert_None.
Qed.

Lemma open_account_keeps_accounts_witness :
  get 1001 (state_of (open_account 3 (py "Bob") 0 0 bank_cent))
  = Some (mkAccount 1001 (py "Alice") 0.01 50 0 0).
Proof.
  destruct (open_account_keeps_accounts 3 (py "Bob") 0 0 bank_cent
              (mkAccount 1002 (py "Bob") 0 0 3 0)
              (state_of (open_account 3 (py "Bob") 0 0 bank_cent)))
    as (_ & Hkeep & _).
  - intros n Hn. apply elem_of_dom in Hn as [a Ha].
    destruct (decide (n = 1001)) as [->|Hne]; [reflexivity|].
    unfold bank_cent in Ha. cbn in Ha.
    rewrite lookup_singleton_ne in Ha by congruence. discriminate.
  - reflexivity.
  - apply Hkeep. reflexivity.
Defined.

(** ** The registry of a bank *)

Lemma bank_call_well_registered today c self :
  (forall n acc, get n self = Some acc -> well_registered n acc) ->
  forall n acc, get n (bank_call today c self) = Some acc -> well_registered n acc.
Proof.
  unfold get. intros Hall n acc.
  destruct c as [name i l|num|num c]; cbn.
  - destruct (open_account today name i l self) as [a s|e s] eqn:Hopen; cbn.
    + apply open_account_ok in Hopen as (-> & -> & Hname & _ & Hl). cbn.
      rewrite lookup_insert. case_decide.
      * intros [= <-]. subst n. unfold well_registered. cbn.
        split; [reflexivity|]. split; [exact Hname|].
        split; [apply strip_idem | exact Hl].
      * apply Hall.
    + apply open_account_raise in Hopen as ->. apply Hall.
  - unfold close_account.
    destruct (_accounts self !! num) as [a|] eqn:Hnum; cbn; [|apply Hall].
    destruct (negb (balance a =? 0)%float); cbn; [apply Hall|].
    rewrite lookup_delete. case_decide; [discriminate | apply Hall].
  - unfold get. destruct (_accounts self !! num) as [a|] eqn:Hnum; cbn; [|apply Hall].
    rewrite lookup_insert. case_decide.
    + subst num. intros [= <-].
      destruct (Hall n a Hnum) as (Hn & Ho & Hs & Hl).
      destruct (account_call_frame today c a) as (Hn' & Ho' & Hl').
      unfold well_registered. rewrite Hn', Ho', Hl'. repeat split; assumption.
    + apply Hall.
Qed.

(** X9.  After any history of calls on a bank that started empty, every
    key of the registry is the number of the account kept under it, and
    that account has a non-empty owner without white space at either end,
    and a limit for which [daily_limit < 0] is false. *)
Theorem registry_is_consistent start cs n acc :
  get n (bank_run cs (Bank_init start)) = Some acc ->
  well_registered n acc.
Proof.
  revert n acc.
  assert (Hgen : forall self,
             (forall n acc, get n self = Some acc -> well_registered n acc) ->
             forall n acc, get n (bank_run cs self) = Some acc ->
                           well_registered n acc).
  { induction cs as [|[t c] cs IH]; intros self Hall; cbn.
    - exact Hall.
    - apply IH, bank_call_well_registered, Hall. }
  apply Hgen. intros n acc. unfold get. cbn. now rewrite lookup_empty.
Qed.

Lemma registry_is_consistent_witness :
  exists acc, get 1002 (bank_run history_bank Bank_default) = Some acc
              /\ well_registered 1002 acc.
Proof.
  eexists. split; [reflexivity|].
  apply (registry_is_consistent 1001 history_bank). reflexivity.
Defined.

Lemma issued_count cs self :
  issued cs self = count_from (_next self) (length (issued cs self))
  /\ _next (bank_run cs self) = _next self + Z.of_nat (length (issued cs self)).
Proof.
  revert self. induction cs as [|[t c] cs IH]; intros self.
  - cbn. split; [reflexivity | lia].
  - cbn [issued bank_run].
    destruct (IH (bank_call t c self)) as [Hlist Hnext].
    destruct (issued_by t c self) as [m|] eqn:Hi.
    + apply issued_by_next in Hi as [-> Hstep]. rewrite Hstep in Hlist, Hnext.
      cbn [length count_from]. split; [now rewrite <- Hlist | lia].
    + rewrite (not_issued_next _ _ _ Hi) in Hlist, Hnext.
      split; assumption.
Qed.

(** X10.  Numbers are handed out one after the other: through any
    history of calls, the numbers issued are [_next], [_next + 1], ...
    without a gap, and [_next] ends that many higher; from [Bank(start)]
    the first account is number [start]. *)
Theorem numbers_are_consecutive :
  (forall cs self,
      issued cs self = count_from (_next self) (length (issued cs self))
      /\ _next (bank_run cs self)
         = _next self + Z.of_nat (length (issued cs self)))
  /\ (forall start cs,
      issued cs (Bank_init start) = count_from start (length (issued cs (Bank_init start)))).
Proof.
  split.
  - intros cs self. apply issued_count.
  - intros start cs. apply (issued_count cs (Bank_init start)).
Qed.

(** ** What [__str__] shows *)

(** X13.  [__str__] never raises and leaves the rolled-over account.  It
    shows the number, the owner and the balance; with a limit set, the
    limit and what is left of it today, which is the whole limit on a day
    other than [last_withdraw_date]; without one, neither.  Called again
    on the same day it shows the same and changes nothing. *)
Theorem str_shows_today today self :
  exists line,
    __str__ today self = Ok line (rolled today self)
    /\ __str__ today (rolled today self) = Ok line (rolled today self)
    /\ sum_number line = number self
    /\ sum_owner line = owner self
    /\ sum_balance line = balance self
    /\ ((0 <? daily_limit self)%float = true ->
        sum_limit line = Some (daily_limit self)
        /\ sum_remaining line
           = Some (daily_limit self - withdrawn_today (rolled today self))%float
        /\ (last_withdraw_date self <> today ->
            sum_remaining line = Some (daily_limit self - 0)%float))
    /\ ((daily_limit self <=? 0)%float = true
        \/ (0 <? daily_limit self)%float = false ->
        sum_limit line = None /\ sum_remaining line = None).
Proof.
  assert (Heq : forall s,
             __str__ today s
             = Ok (mkSummary (number (rolled today s)) (owner (rolled today s))
                     (balance (rolled today s))
                     (if (0 <? daily_limit (rolled today s))%float
                      then Some (daily_limit (rolled today s)) else None)
                     (if (0 <? daily_limit (rolled today s))%float
                      then Some (daily_limit (rolled today s)
                                 - withdrawn_today (rolled today s))%float
                      else None))
                  (rolled today s)).
  { intros s. unfold rolled. unfold_method.
    destruct (negb (last_withdraw_date s =? today)); reflexivity. }
  eexists. split; [apply Heq|].
  split; [rewrite Heq, rolled_idem; reflexivity|].
  destruct (rolled_frame today self) as (Hn & Ho & Hb & Hl). cbn.
  rewrite Hn, Ho, Hb, Hl.
  split; [reflexivity|]. split; [reflexivity|]. split; [reflexivity|]. split.
  - intros Hlim. rewrite Hlim.
    split; [reflexivity|]. split; [reflexivity|].
    intros Hne. now rewrite rolled_new_day.
  - intros Hno.
    assert (Hf : (0 <? daily_limit self)%float = false)
      by (destruct Hno as [H|H]; [now apply leb_0_not_ltb | exact H]).
    rewrite Hf. split; reflexivity.
Qed.

Lemma str_shows_today_witness :
  exists line,
    __str__ 1 alice_spent = Ok line (rolled 1 alice_spent)
    /\ sum_remaining line = Some (50 - 0)%float.
Proof.
  destruct (str_shows_today 1 alice_spent)
    as (line & Hstr & _ & _ & _ & _ & Hlim & _).
  exists line. split; [exact Hstr|].
  destruct Hlim as (_ & _ & Hnew); [reflexivity|].
  apply Hnew. discriminate.
Defined.

(** ** What the snapshot shares *)

Lemma list_accounts_registry self h l h' :
  ObjectStore.list_accounts self h = (l, h') ->
  ObjectStore.dict_at (ObjectStore._accounts_ref self) h'
  = ObjectStore.dict_at (ObjectStore._accounts_ref self) h
  /\ ObjectStore.dict_at l h'
     = ObjectStore.dict_at (ObjectStore._accounts_ref self) h
  /\ ObjectStore.account_objs h' = ObjectStore.account_objs h.
Proof.
  unfold ObjectStore.list_accounts. intros Hcopy.
  apply ObjectStoreFacts.dict_copy_spec in Hcopy as (_ & Hacc & Hdict).
  split; [|split; [|exact Hacc]].
  - unfold ObjectStore.dict_at at 1. rewrite Hdict.
    destruct (decide (l = ObjectStore._accounts_ref self)) as [->|Hne].
    + now rewrite lookup_insert_eq.
    + now rewrite lookup_insert_ne.
  - unfold ObjectStore.dict_at at 1. now rewrite Hdict, lookup_insert_eq.
Qed.

(** X14.  The dict [list_accounts] returns is a shallow copy: it maps the
    numbers to the bank's own account objects.  A method run on an
    account reached through the returned dict is therefore seen by the
    bank, under the same number. *)
Theorem snapshot_is_shallow self h l h' n r f :
  ObjectStore.list_accounts self h = (l, h') ->
  ObjectStore.dict_at l h' !! n = Some r ->
  get n (ObjectStore.bank_view self (ObjectStore.account_op r f h'))
  = f <$> get n (ObjectStore.bank_view self h).
Proof.
  intros Hcopy Hn.
  destruct (list_accounts_registry self h l h' Hcopy) as (Hreg & Hl & Hacc).
  rewrite Hl in Hn.
  unfold get, ObjectStore.bank_view, ObjectStore.resolve. cbn.
  change (ObjectStore.dict_at (ObjectStore._accounts_ref self)
            (ObjectStore.account_op r f h'))
    with (ObjectStore.dict_at (ObjectStore._accounts_ref self) h').
  rewrite Hreg, !lookup_omap, Hn. cbn.
  rewrite Hacc. apply lookup_alter_eq.
Qed.

Lemma snapshot_is_shallow_witness :
  get 1001 (ObjectStore.bank_view bank_obj1
              (ObjectStore.account_op 1 (account_call 0 (Withdraw 40))
                 (ObjectStore.list_accounts bank_obj1 heap1).2))
  = account_call 0 (Withdraw 40)
      <$> get 1001 (ObjectStore.bank_view bank_obj1 heap1).
Proof.
  apply (snapshot_is_shallow bank_obj1 heap1
           (ObjectStore.list_accounts bank_obj1 heap1).1).
  - reflexivity.
  - reflexivity.
Defined.

(** X15.  The returned dict is not kept up to date: whatever entries are
    set or deleted in the bank's registry afterwards, the returned dict
    still has the entries the registry had when it was taken. *)
Theorem snapshot_is_not_updated self h l h' ops :
  ObjectStore._accounts_ref self ∈ dom (ObjectStore.dict_objs h) ->
  ObjectStore.list_accounts self h = (l, h') ->
  ObjectStore.dict_at l
    (ObjectStore.dict_ops (ObjectStore._accounts_ref self) ops h')
  = ObjectStore.dict_at (ObjectStore._accounts_ref self) h.
Proof.
  intros Hreg Hcopy.
  destruct (list_accounts_registry self h l h' Hcopy) as (_ & Hl & _).
  unfold ObjectStore.list_accounts in Hcopy.
  apply ObjectStoreFacts.dict_copy_spec in Hcopy as (Hfresh & _ & _).
  assert (Hne : ObjectStore._accounts_ref self <> l)
    by (intros <-; exact (Hfresh Hreg)).
  rewrite <- Hl. unfold ObjectStore.dict_at.
  now rewrite ObjectStoreFacts.dict_ops_other.
Qed.

Lemma snapshot_is_not_updated_witness :
  ObjectStore.dict_at (ObjectStore.list_accounts bank_obj1 heap1).1
    (ObjectStore.dict_ops 3 [ObjectStore.DelItem 1001; ObjectStore.SetItem 1003 2%positive]
       (ObjectStore.list_accounts bank_obj1 heap1).2)
  = {[ 1001 := 1%positive; 1002 := 2%positive ]}.
Proof.
  apply (snapshot_is_not_updated bank_obj1 heap1
           (ObjectStore.list_accounts bank_obj1 heap1).1
           (ObjectStore.list_accounts bank_obj1 heap1).2).
  - vm_compute. reflexivity.
  - reflexivity.
Defined.


(** ** Binary64 arithmetic that stays at or above zero *)

Lemma ltb_0_spec (a : float) :
  (a <? 0)%float = negb (not_negative (Prim2SF a)).
Proof.
  rewrite ltb_spec. unfold SFltb.
  change (Prim2SF 0) with (S754_zero false).
  destruct (Prim2SF a) as [s|s| |s m e]; cbn; try reflexivity;
    destruct s; reflexivity.
Qed.

Lemma not_below_zero_iff (a : float) :
  (a <? 0)%float = false <-> not_negative (Prim2SF a) = true.
Proof. rewrite ltb_0_spec. destruct (not_negative _); cbn; split; congruence. Qed.

(** Rounding keeps the sign it is given. *)
Lemma binary_round_aux_sign mx ex lx :
  not_negative (binary_round_aux prec emax false mx ex lx) = true.
Proof.
  unfold binary_round_aux.
  destruct (shr_fexp prec emax mx ex lx) as [mrs' e'].
  destruct (shr_fexp prec emax _ e' loc_Exact) as [mrs'' e''].
  destruct (shr_m mrs''); [reflexivity | | reflexivity].
  destruct (_ <=? _); reflexivity.
Qed.

Lemma binary_normalize_sign m e :
  0 <= m -> not_negative (binary_normalize prec emax m e false) = true.
Proof.
  destruct m as [|p|p]; intros Hm; [reflexivity | | lia].
  unfold binary_normalize, binary_round.
  destruct (shl_align _ _ _) as [mz ez]. apply binary_round_aux_sign.
Qed.

Lemma SFadd_sign x y :
  not_negative x = true -> not_negative y = true ->
  not_negative (SFadd prec emax x y) = true.
Proof.
  destruct x as [sx|sx| |sx mx ex], y as [sy|sy| |sy my ey]; cbn;
    try destruct sx; try destruct sy; try discriminate; try reflexivity.
  intros _ _. apply binary_normalize_sign. cbn. lia.
Qed.

Lemma SFmul_sign x y :
  not_negative x = true -> not_negative y = true ->
  not_negative (SFmul prec emax x y) = true.
Proof.
  destruct x as [sx|sx| |sx mx ex], y as [sy|sy| |sy my ey]; cbn;
    try destruct sx; try destruct sy; try discriminate; try reflexivity.
  intros _ _. apply binary_round_aux_sign.
Qed.

Lemma SFdiv_sign x my ey :
  not_negative x = true ->
  not_negative (SFdiv prec emax x (S754_finite false my ey)) = true.
Proof.
  destruct x as [sx|sx| |sx mx ex]; cbn;
    try destruct sx; try discriminate; try reflexivity.
  intros _. destruct (SFdiv_core_binary _ _ _ _ _ _) as [[mz ez] lz].
  apply binary_round_aux_sign.
Qed.

Lemma add_not_below_zero (a b : float) :
  (a <? 0)%float = false -> (b <? 0)%float = false ->
  (a + b <? 0)%float = false.
Proof. rewrite !not_below_zero_iff, add_spec. apply SFadd_sign. Qed.

Lemma mul_not_below_zero (a b : float) :
  (a <? 0)%float = false -> (b <? 0)%float = false ->
  (a * b <? 0)%float = false.
Proof. rewrite !not_below_zero_iff, mul_spec. apply SFmul_sign. Qed.

Lemma div_100_not_below_zero (a : float) :
  (a <? 0)%float = false -> (a / 100 <? 0)%float = false.
Proof.
  rewrite !not_below_zero_iff, div_spec.
  change (Prim2SF 100) with (S754_finite false 7036874417766400 (-46)).
  apply SFdiv_sign.
Qed.

(** An amount that passes the test [amount <= 0] is not below zero. *)
Lemma not_leb_0_not_below (a : float) :
  (a <=? 0)%float = false -> (a <? 0)%float = false.
Proof.
  rewrite ltb_spec, leb_spec. unfold SFltb, SFleb.
  change (Prim2SF 0) with (S754_zero false).
  destruct (Prim2SF a) as [s|s| |s m e]; cbn; try discriminate; try reflexivity;
    destruct s; cbn; try discriminate; reflexivity.
Qed.

Lemma digits2_pos_bounds m :
  2 ^ (Z.pos (digits2_pos m) - 1) <= Z.pos m < 2 ^ Z.pos (digits2_pos m).
Proof.
  induction m as [m IH|m IH|]; cbn [digits2_pos].
  - rewrite Pos2Z.inj_succ.
    replace (Z.succ (Z.pos (digits2_pos m)) - 1)
      with (Z.succ (Z.pos (digits2_pos m) - 1)) by lia.
    rewrite !Z.pow_succ_r by lia. lia.
  - rewrite Pos2Z.inj_succ.
    replace (Z.succ (Z.pos (digits2_pos m)) - 1)
      with (Z.succ (Z.pos (digits2_pos m) - 1)) by lia.
    rewrite !Z.pow_succ_r by lia. lia.
  - cbn. lia.
Qed.

Lemma iter_xO_ge m d : 2 * Z.pos m <= Z.pos (Pos.iter xO m d).
Proof.
  induction d as [|d IH] using Pos.peano_ind.
  - cbn. lia.
  - rewrite Pos.iter_succ. lia.
Qed.

(** The difference of two binary64 numbers, the second above zero and
    not above the first, is not below zero.  With equal exponents the
    mantissas decide; with a larger exponent the first number has a full
    mantissa of 53 bits, which shifted by one bit already exceeds every
    mantissa. *)
Lemma SFsub_sign x y :
  valid_binary x = true -> valid_binary y = true ->
  not_negative x = true ->
  SFltb x y = false -> SFleb y (S754_zero false) = false ->
  not_negative (SFsub prec emax x y) = true.
Proof.
  unfold SFltb, SFleb.
  destruct x as [sx|sx| |sx mx ex], y as [sy|sy| |sy my ey]; cbn;
    try destruct sx; try destruct sy; try discriminate; try reflexivity.
  intros Hx Hy _ Hcmp _.
  apply binary_normalize_sign. cbn [cond_Zopp].
  unfold bounded, canonical_mantissa, fexp in Hx, Hy.
  apply andb_prop in Hx as [Hx _]. apply andb_prop in Hy as [Hy _].
  apply Z.eqb_eq in Hx, Hy.
  pose proof (digits2_pos_bounds mx) as Hdx.
  pose proof (digits2_pos_bounds my) as Hdy.
  destruct (Z.compare_spec ex ey) as [Heq|Hlt|Hgt]; [| discriminate |].
  - subst ey. rewrite Z.min_id. unfold shl_align. rewrite Z.sub_diag. cbn [fst].
    assert (Hge : (mx ?= my)%positive <> Lt).
    { intros H. unfold Pos.compare in H. rewrite H in Hcmp. discriminate. }
    apply Pos.compare_ge_iff in Hge. lia.
  - rewrite Z.min_r by lia. unfold shl_align. rewrite Z.sub_diag. cbn [fst].
    destruct (ey - ex) as [|d|d] eqn:Hd; try lia. cbn [fst].
    pose proof (iter_xO_ge mx d) as Hit.
    change (SpecFloat.emin prec emax) with (-1074) in Hx, Hy.
    change prec with 53 in Hx, Hy.
    change IntDef.Z.max with Z.max in Hx, Hy.
    assert (Hdigx : Z.pos (digits2_pos mx) = 53) by lia.
    assert (Hdigy : Z.pos (digits2_pos my) <= 53) by lia.
    rewrite Hdigx in Hdx.
    assert (2 ^ Z.pos (digits2_pos my) <= 2 ^ 53)
      by (apply Z.pow_le_mono_r; lia).
    change (2 ^ (53 - 1)) with 4503599627370496 in Hdx.
    change (2 ^ 53) with 9007199254740992 in *.
    lia.
Qed.

Lemma sub_not_below_zero (b a : float) :
  (b <? 0)%float = false -> (b <? a)%float = false ->
  (a <=? 0)%float = false ->
  (b - a <? 0)%float = false.
Proof.
  rewrite !not_below_zero_iff, sub_spec, ltb_spec, leb_spec.
  change (Prim2SF 0) with (S754_zero false).
  intros Hb Hlt Hle.
  apply SFsub_sign; try assumption; apply Prim2SF_valid.
Qed.

(** What is not below zero is at least zero, or NaN. *)
Lemma not_below_zero_or_nan (a : float) :
  (a <? 0)%float = false -> (0 <=? a)%float = true \/ a = nan.
Proof.
  rewrite ltb_spec, leb_spec. unfold SFltb, SFleb.
  change (Prim2SF 0) with (S754_zero false).
  destruct (Prim2SF a) as [s|s| |s m e] eqn:Ha; cbn;
    try (destruct s; cbn; try discriminate; intros _; left; reflexivity).
  intros _. right. rewrite <- (SF2Prim_Prim2SF a), Ha. reflexivity.
Qed.

(** NaN absorbs. *)
Lemma nan_add (a : float) : (nan + a)%float = nan.
Proof. apply Prim2SF_inj. rewrite add_spec. reflexivity. Qed.

Lemma nan_sub (a : float) : (nan - a)%float = nan.
Proof. apply Prim2SF_inj. rewrite sub_spec. reflexivity. Qed.

Lemma nan_mul (a : float) : (nan * a)%float = nan.
Proof. apply Prim2SF_inj. rewrite mul_spec. reflexivity. Qed.

(** A positive, finite number: not below itself, and zero when taken
    from itself. *)
Lemma sub_self_finite (b : float) :
  (0 <? b)%float = true -> (b <? infinity)%float = true ->
  (b <? b)%float = false /\ (b - b)%float = 0%float.
Proof.
  intros Hpos Hfin.
  assert (Hb : exists m e, Prim2SF b = S754_finite false m e).
  { revert Hpos Hfin. rewrite !ltb_spec. unfold SFltb.
    change (Prim2SF 0) with (S754_zero false).
    change (Prim2SF infinity) with (S754_infinity false).
    destruct (Prim2SF b) as [s|s| |s m e]; cbn; try discriminate;
      destruct s; cbn; try discriminate. eauto. }
  destruct Hb as (m & e & Hb). split.
  - rewrite ltb_spec, Hb. unfold SFltb. cbn.
    now rewrite Z.compare_refl, Pos.compare_cont_refl.
  - apply Prim2SF_inj. rewrite sub_spec, Hb.
    change (Prim2SF 0) with (S754_zero false).
    unfold SF64sub, SFsub. cbn [cond_Zopp].
    rewrite Z.min_id. unfold shl_align. rewrite Z.sub_diag. cbn [fst].
    rewrite ?Z.sub_diag. reflexivity.
Qed.

(** ** Amounts that never go below zero *)

Lemma account_call_balance today c self :
  (balance self <? 0)%float = false ->
  (balance (account_call today c self) <? 0)%float = false.
Proof.
  intros Hb. destruct c as [amount|amount|rate|]; cbn.
  - rewrite deposit_eq. destruct (amount <=? 0)%float eqn:Hamt; cbn; [assumption|].
    apply add_not_below_zero; [assumption | now apply not_leb_0_not_below].
  - rewrite withdraw_eq.
    destruct (amount <=? 0)%float eqn:Hamt; [assumption|]. cbv zeta.
    destruct (rolled_frame today self) as (_ & _ & Hbal & _). rewrite Hbal.
    destruct (balance self <? amount)%float eqn:Hfunds; cbn; [now rewrite Hbal|].
    destruct ((0 <? _)%float && (_ <? amount)%float); cbn; [now rewrite Hbal|].
    now apply sub_not_below_zero.
  - rewrite apply_interest_eq. destruct (rate <? 0)%float eqn:Hrate; cbn; [assumption|].
    apply add_not_below_zero; [assumption|].
    apply mul_not_below_zero; [assumption|].
    now apply div_100_not_below_zero.
  - rewrite str_state. destruct (rolled_frame today self) as (_ & _ & -> & _).
    assumption.
Qed.

Lemma rolled_withdrawn today self :
  withdrawn_today (rolled today self) = withdrawn_today self
  \/ withdrawn_today (rolled today self) = 0%float.
Proof.
  destruct (Z.eq_dec (last_withdraw_date self) today) as [Heq|Hne].
  - left. now rewrite rolled_same_day.
  - right. now rewrite rolled_new_day.
Qed.

Lemma account_call_withdrawn today c self :
  (withdrawn_today self <? 0)%float = false ->
  (withdrawn_today (account_call today c self) <? 0)%float = false.
Proof.
  intros Hw.
  assert (Hr : (withdrawn_today (rolled today self) <? 0)%float = false)
    by (destruct (rolled_withdrawn today self) as [-> | ->];
        [assumption | reflexivity]).
  destruct c as [amount|amount|rate|]; cbn.
  - rewrite deposit_eq. destruct (amount <=? 0)%float; assumption.
  - rewrite withdraw_eq. destruct (amount <=? 0)%float eqn:Hamt; [assumption|].
    cbv zeta.
    destruct (balance _ <? amount)%float; cbn; [assumption|].
    destruct ((0 <? _)%float && (_ <? amount)%float); cbn; [assumption|].
    apply add_not_below_zero; [assumption | now apply not_leb_0_not_below].
  - rewrite apply_interest_eq. destruct (rate <? 0)%float; assumption.
  - rewrite str_state. assumption.
Qed.

Lemma opened_balance today name initial_deposit limit self acc self' :
  open_account today name initial_deposit limit self = Ok acc self' ->
  (balance acc <? 0)%float = false.
Proof.
  intros H. apply open_account_ok in H as (-> & _ & _ & Hi & _). cbn.
  destruct (0 <? initial_deposit)%float; [|reflexivity].
  apply add_not_below_zero; [reflexivity | assumption].
Qed.

(** X22.  The balance of an account never goes below zero: [balance < 0]
    is false of an account as [open_account] returns it, after any
    history of [deposit], [withdraw], [apply_interest] and [__str__]
    calls on any days, returning or raising, and of every account
    registered in a bank that started empty, after any history of calls.
    So the balance is at least 0 unless it is NaN. *)
Theorem balance_never_below_zero :
  (forall today name initial_deposit limit bank acc bank' cs,
      open_account today name initial_deposit limit bank = Ok acc bank' ->
      (balance (account_run cs acc) <? 0)%float = false
      /\ ((0 <=? balance (account_run cs acc))%float = true
          \/ balance (account_run cs acc) = nan))
  /\ (forall start cs n acc,
      get n (bank_run cs (Bank_init start)) = Some acc ->
      (balance acc <? 0)%float = false
      /\ ((0 <=? balance acc)%float = true \/ balance acc = nan)).
Proof.
  split.
  - intros today name i l bank acc bank' cs Hopen.
    assert (H : (balance (account_run cs acc) <? 0)%float = false).
    { apply (account_run_preserves (fun a => (balance a <? 0)%float = false)).
      - intros t c self. apply account_call_balance.
      - eapply opened_balance, Hopen. }
    split; [exact H | now apply not_below_zero_or_nan].
  - intros start cs n acc Hget.
    assert (H : (balance acc <? 0)%float = false).
    { revert n acc Hget.
      apply (bank_run_from_init (fun a => (balance a <? 0)%float = false)).
      - intros t c self. apply account_call_balance.
      - apply opened_balance. }
    split; [exact H | now apply not_below_zero_or_nan].
Qed.

Lemma balance_never_below_zero_witness :
  (exists acc, get 1001 (bank_run history_bank Bank_default) = Some acc
               /\ (balance acc <? 0)%float = false)
  /\ (exists acc, get 1001 (bank_run history_overflow Bank_default) = Some acc
                  /\ (balance acc <? 0)%float = false
                  /\ balance acc = nan).
Proof.
  destruct balance_never_below_zero as (_ & Hbank).
  split.
  - eexists. split; [reflexivity|].
    eapply proj1, (Hbank 1001 history_bank 1001). reflexivity.
  - eexists. split; [reflexivity|]. split; [|reflexivity].
    eapply proj1, (Hbank 1001 history_overflow 1001). reflexivity.
Defined.

(** X23.  [withdrawn_today] never goes below zero: it is 0 on the
    account [open_account] returns, the rollover sets it to 0, a
    returning [withdraw] adds an amount that passed the test
    [amount <= 0], and nothing else writes it.  So through any history
    of calls, on the account and in a bank that started empty,
    [withdrawn_today < 0] is false, and the counter is at least 0 unless
    it is NaN. *)
Theorem withdrawn_today_never_below_zero :
  (forall today name initial_deposit limit bank acc bank' cs,
      open_account today name initial_deposit limit bank = Ok acc bank' ->
      withdrawn_today acc = 0%float
      /\ (withdrawn_today (account_run cs acc) <? 0)%float = false
      /\ ((0 <=? withdrawn_today (account_run cs acc))%float = true
          \/ withdrawn_today (account_run cs acc) = nan))
  /\ (forall start cs n acc,
      get n (bank_run cs (Bank_init start)) = Some acc ->
      (withdrawn_today acc <? 0)%float = false
      /\ ((0 <=? withdrawn_today acc)%float = true \/ withdrawn_today acc = nan))
  /\ (forall today self,
      last_withdraw_date self <> today ->
      withdrawn_today (rolled today self) = 0%float)
  /\ (forall today amount self self',
      withdraw today amount self = Ok tt self' ->
      (amount <=? 0)%float = false
      /\ withdrawn_today self'
         = (withdrawn_today (rolled today self) + amount)%float).
Proof.
  split; [|split; [|split]].
  - intros today name i l bank acc bank' cs Hopen.
    split; [eapply opened_withdrawn, Hopen|].
    assert (H : (withdrawn_today (account_run cs acc) <? 0)%float = false).
    { apply (account_run_preserves
               (fun a => (withdrawn_today a <? 0)%float = false)).
      - intros t c self. apply account_call_withdrawn.
      - now erewrite opened_withdrawn by exact Hopen. }
    split; [exact H | now apply not_below_zero_or_nan].
  - intros start cs n acc Hget.
    assert (H : (withdrawn_today acc <? 0)%float = false).
    { revert n acc Hget.
      apply (bank_run_from_init
               (fun a => (withdrawn_today a <? 0)%float = false)).
      - intros t c self. apply account_call_withdrawn.
      - intros t name i l self a s Hopen.
        now erewrite opened_withdrawn by exact Hopen. }
    split; [exact H | now apply not_below_zero_or_nan].
  - intros today self Hne. now rewrite rolled_new_day.
  - intros today amount self self'. rewrite withdraw_eq.
    destruct (amount <=? 0)%float eqn:Hamt; [discriminate|]. cbv zeta.
    destruct (balance _ <? amount)%float; [discriminate|].
    destruct ((0 <? _)%float && (_ <? amount)%float); [discriminate|].
    intros [= <-]. split; reflexivity.
Qed.

Lemma withdrawn_today_never_below_zero_witness :
  (exists acc, get 1001 (bank_run history_bank Bank_default) = Some acc
               /\ (withdrawn_today acc <? 0)%float = false)
  /\ withdrawn_today (rolled 1 alice_spent) = 0%float
  /\ withdrawn_today (state_of (withdraw 1 20 alice_spent)) = (0 + 20)%float.
Proof.
  destruct withdrawn_today_never_below_zero as (_ & Hbank & Hroll & Hwd).
  split; [|split].
  - eexists. split; [reflexivity|].
    eapply proj1, (Hbank 1001 history_bank 1001). reflexivity.
  - apply Hroll. discriminate.
  - apply (Hwd 1 20%float alice_spent (state_of (withdraw 1 20 alice_spent))).
    reflexivity.
Defined.

(** ** A balance of NaN *)

Lemma account_call_nan today c self :
  balance self = nan -> balance (account_call today c self) = nan.
Proof.
  intros Hb. destruct c as [amount|amount|rate|]; cbn.
  - rewrite deposit_eq. destruct (amount <=? 0)%float; cbn; [assumption|].
    rewrite Hb. apply nan_add.
  - rewrite withdraw_eq. destruct (amount <=? 0)%float; [assumption|]. cbv zeta.
    destruct (rolled_frame today self) as (_ & _ & Hbal & _).
    destruct (balance _ <? amount)%float; cbn; [now rewrite Hbal|].
    destruct ((0 <? _)%float && (_ <? amount)%float); cbn; [now rewrite Hbal|].
    rewrite Hbal, Hb. apply nan_sub.
  - rewrite apply_interest_eq. destruct (rate <? 0)%float; cbn; [assumption|].
    rewrite Hb. apply nan_add.
  - rewrite str_state. destruct (rolled_frame today self) as (_ & _ & -> & _).
    assumption.
Qed.

Lemma bank_call_nan today c self n a :
  keys_below_next self ->
  get n self = Some a -> balance a = nan ->
  exists a', get n (bank_call today c self) = Some a' /\ balance a' = nan.
Proof.
  unfold get. intros Hinv Hn Hb.
  assert (Hlt : n < _next self) by (apply Hinv, elem_of_dom; eauto).
  destruct c as [name i l|num|num c]; cbn.
  - destruct (open_account today name i l self) as [acc s|e s] eqn:Hopen; cbn.
    + apply open_account_ok in Hopen as (_ & -> & _). cbn.
      rewrite lookup_insert_ne by lia. eauto.
    + apply open_account_raise in Hopen as ->. eauto.
  - unfold close_account.
    destruct (_accounts self !! num) as [acc|] eqn:Hnum; cbn; [|eauto].
    destruct (negb (balance acc =? 0)%float) eqn:Hz; cbn; [eauto|].
    rewrite lookup_delete_ne; [eauto|].
    intros <-. rewrite Hn in Hnum. injection Hnum as <-.
    rewrite Hb in Hz. discriminate Hz.
  - unfold get. destruct (_accounts self !! num) as [acc|] eqn:Hnum; cbn; [|eauto].
    destruct (decide (num = n)) as [->|Hne].
    + rewrite lookup_insert_eq. rewrite Hn in Hnum. injection Hnum as <-.
      eexists. split; [reflexivity|]. now apply account_call_nan.
    + rewrite lookup_insert_ne by exact Hne. eauto.
Qed.

(** X24.  A balance of NaN is for good.  Every call on the account
    leaves it NaN, and [close_account] refuses the account, as
    [balance != 0] holds of NaN: in a bank whose keys are below [_next],
    as they are from [Bank()] on, the account stays registered, with a
    balance of NaN, through every history of calls. *)
Theorem nan_balance_is_permanent :
  (forall cs self, balance self = nan -> balance (account_run cs self) = nan)
  /\ (forall num self acc,
      get num self = Some acc -> balance acc = nan ->
      close_account num self = Raise (ValueError BalanceNotZero) self)
  /\ (forall cs self n a,
      keys_below_next self ->
      get n self = Some a -> balance a = nan ->
      exists a', get n (bank_run cs self) = Some a' /\ balance a' = nan).
Proof.
  split; [|split].
  - intros cs self Hb.
    apply (account_run_preserves (fun a => balance a = nan)); [|exact Hb].
    intros t c a. apply account_call_nan.
  - intros num self acc Hget Hb. unfold close_account.
    unfold get in Hget. rewrite Hget, Hb. reflexivity.
  - induction cs as [|[t c] cs IH]; intros self n a Hinv Hn Hb; cbn.
    + eauto.
    + destruct (bank_call_nan t c self n a Hinv Hn Hb) as (a1 & Hn1 & Hb1).
      apply (IH _ n a1); [apply bank_call_keys_below, Hinv | exact Hn1 | exact Hb1].
Qed.

Lemma nan_balance_is_permanent_witness :
  exists a',
    get 1001 (bank_run [(1, OnAccount 1001 (Withdraw 5)); (1, Close 1001);
                        (2, OnAccount 1001 (Deposit 7))]
                (bank_run history_nan_deposit Bank_default)) = Some a'
    /\ balance a' = nan.
Proof.
  destruct nan_balance_is_permanent as (_ & _ & Hbank).
  apply (Hbank _ (bank_run history_nan_deposit Bank_default) 1001
               (mkAccount 1001 (py "Alice") nan 0 0 0)).
  - apply bank_run_keys_below, init_keys_below.
  - reflexivity.
  - reflexivity.
Defined.

(** ** Emptying and closing *)

(** X12.  An account with a finite amount of money in it can always be
    emptied and closed when no daily limit stands in the way:
    withdrawing the whole balance returns and leaves a balance of 0, and
    [close_account] then returns the account and removes its number from
    the registry. *)
Theorem withdraw_all_then_close today num self acc :
  get num self = Some acc ->
  (0 <? balance acc)%float = true ->
  (balance acc <? infinity)%float = true ->
  ((0 <? daily_limit acc)%float = true ->
   (daily_limit acc - withdrawn_today (rolled today acc) <? balance acc)%float
   = false) ->
  exists self1 acc' self2,
    on_account num (withdraw today (balance acc)) self = Some (Ok tt self1)
    /\ close_account num self1 = Ok acc' self2
    /\ balance acc' = 0%float
    /\ get num self2 = None
    /\ _next self2 = _next self.
Proof.
  intros Hget Hpos Hfin Hlim. unfold on_account. rewrite Hget.
  destruct (sub_self_finite _ Hpos Hfin) as [Hirr Hzero].
  assert (Hret : withdraw today (balance acc) acc
                 = Ok tt (mkAccount (number (rolled today acc))
                            (owner (rolled today acc)) 0
                            (daily_limit (rolled today acc))
                            (last_withdraw_date (rolled today acc))
                            (withdrawn_today (rolled today acc) + balance acc))).
  { rewrite withdraw_eq.
    destruct (rolled_frame today acc) as (_ & _ & Hb & Hl).
    rewrite (ltb_pos_not_leb _ Hpos). cbv zeta.
    rewrite Hb, Hl, Hirr, Hzero.
    destruct (0 <? daily_limit acc)%float eqn:Hlb; cbn [andb]; [|reflexivity].
    now rewrite (Hlim eq_refl). }
  rewrite Hret.
  eexists. eexists. eexists.
  split; [reflexivity|].
  unfold close_account, get. cbn. rewrite lookup_insert_eq. cbn.
  split; [reflexivity|]. split; [reflexivity|].
  split; [apply lookup_delete_eq | reflexivity].
Qed.

Lemma withdraw_all_then_close_witness :
  exists self1 acc' self2,
    on_account 1001 (withdraw 5 0.01) bank_cent = Some (Ok tt self1)
    /\ close_account 1001 self1 = Ok acc' self2
    /\ balance acc' = 0%float
    /\ get 1001 self2 = None
    /\ _next self2 = _next bank_cent.
Proof.
  apply (withdraw_all_then_close 5 1001 bank_cent
           (mkAccount 1001 (py "Alice") 0.01 50 0 0)).
  - reflexivity.
  - reflexivity.
  - reflexivity.
  - intros _. reflexivity.
Defined.

(** * The console *)

(** ** Worlds *)

Lemma bank_run_app cs1 cs2 self :
  bank_run (cs1 ++ cs2) self = bank_run cs2 (bank_run cs1 self).
Proof.
  revert self. induction cs1 as [|[t c] cs1 IH]; intros self; cbn.
  - reflexivity.
  - apply IH.
Qed.

Lemma leads_to_refl P w : leads_to P w w.
Proof.
  split; [exists []; reflexivity|].
  split; [exists []; now rewrite app_nil_r|].
  exists []. split; [constructor | reflexivity].
Qed.

Lemma leads_to_trans P w1 w2 w3 :
  leads_to P w1 w2 -> leads_to P w2 w3 -> leads_to P w1 w3.
Proof.
  intros ([t1 H1] & [o1 O1] & (c1 & F1 & C1)) ([t2 H2] & [o2 O2] & (c2 & F2 & C2)).
  split; [exists (t1 ++ t2); now rewrite H1, H2, app_assoc|].
  split; [exists (o1 ++ o2); now rewrite O2, O1, app_assoc|].
  exists (c1 ++ c2). split; [now apply Forall_app|].
  now rewrite C2, C1, bank_run_app.
Qed.

Lemma leads_to_weaken (P P' : Z * BankCall -> Prop) w w' :
  (forall tc, P tc -> P' tc) -> leads_to P w w' -> leads_to P' w w'.
Proof.
  intros Himp (Hin & Hout & (cs & Hcs & Hb)).
  split; [exact Hin|]. split; [exact Hout|].
  exists cs. split; [|exact Hb]. eapply Forall_impl; eassumption.
Qed.

Lemma leads_to_emit P o w : leads_to P w (emit o w).
Proof.
  split; [exists []; reflexivity|].
  split; [exists [o]; reflexivity|].
  exists []. split; [constructor | reflexivity].
Qed.

Lemma leads_to_call (P : Z * BankCall -> Prop) w today c :
  P (today, c) ->
  leads_to P w (set_bank (bank_call today c (the_bank w)) w).
Proof.
  intros HP. split; [exists []; reflexivity|].
  split; [exists []; cbn; now rewrite app_nil_r|].
  exists [(today, c)]. split; [now repeat constructor | reflexivity].
Qed.

Lemma mild_from {A} P E w w' (r : Run A) :
  leads_to P w w' -> mild P E w' r -> mild P E w r.
Proof.
  intros Hl [Hl' Hr]. split; [eapply leads_to_trans; eassumption | exact Hr].
Qed.

Lemma mild_weaken {A} (P P' : Z * BankCall -> Prop) (E E' : Exception -> Prop)
    w (r : Run A) :
  (forall tc, P tc -> P' tc) -> (forall e, E e -> E' e) ->
  mild P E w r -> mild P' E' w r.
Proof.
  intros HP HE [Hl Hr]. split; [eapply leads_to_weaken; eassumption|].
  destruct r as [v w'|[|e] w']; auto.
Qed.

Lemma mild_bind {A B} P E (m : IO A) (k : A -> IO B) w :
  mild P E w (m w) ->
  (forall v w', m w = Returns v w' -> mild P E w' (k v w')) ->
  mild P E w (io_bind m k w).
Proof.
  intros Hm Hk. unfold io_bind.
  destruct (m w) as [v w'|x w'] eqn:Hmw.
  - destruct Hm as [Hl _]. eapply mild_from; [exact Hl | now apply Hk].
  - exact Hm.
Qed.

(** The same, when the calls allowed afterwards depend on what [m]
    returned ([i], say the number read). *)
Lemma mild_bind_ex {A B I} (P : I -> Z * BankCall -> Prop) E
    (m : IO A) (k : A -> IO B) w (i0 : I) :
  (forall i, mild (P i) E w (m w)) ->
  (forall v w', m w = Returns v w' -> exists i, mild (P i) E w' (k v w')) ->
  exists i, mild (P i) E w (io_bind m k w).
Proof.
  intros Hm Hk. unfold io_bind.
  destruct (m w) as [v w'|x w'] eqn:Hmw.
  - destruct (Hk v w' eq_refl) as [i Hi]. exists i.
    destruct (Hm i) as [Hl _]. eapply mild_from; eassumption.
  - exists i0. apply Hm.
Qed.

Lemma mild_try {A} P E E' (body : IO A) catches handler w :
  mild P E w (body w) ->
  (forall e, E e -> catches e = true) ->
  (forall e w', mild P E' w' (handler e w')) ->
  mild P E' w (try_except body catches handler w).
Proof.
  intros [Hl Hb] Hcatch Hh. unfold try_except.
  destruct (body w) as [v w'|[|e] w'].
  - split; [exact Hl | exact I].
  - split; [exact Hl | exact I].
  - cbn in Hl, Hb. rewrite (Hcatch e Hb).
    eapply mild_from; [exact Hl | apply Hh].
Qed.

Lemma mild_ret {A} P E (v : A) w : mild P E w (io_ret v w).
Proof. split; [apply leads_to_refl | exact I]. Qed.

Lemma mild_print P E text w : mild P E w (print text w).
Proof. split; [apply leads_to_emit | exact I]. Qed.

Lemma mild_print_error P E e w : mild P E w (print_error e w).
Proof. split; [apply leads_to_emit | exact I]. Qed.

Lemma mild_input P E prompt w : mild P E w (input prompt w).
Proof.
  unfold input. destruct (stdin w) as [|[d line] rest] eqn:Hin.
  - split; [apply leads_to_emit | exact I].
  - split; [|exact I].
    split; [exists [(d, line)]; now rewrite Hin|].
    split; [exists [Asked prompt]; reflexivity|].
    exists []. split; [constructor | reflexivity].
Qed.

(** What returning calls that only read and write leave of the world. *)
Lemma print_returns text w v w' :
  print text w = Returns v w' -> w' = emit (Printed text) w.
Proof. now intros [= _ <-]. Qed.

Lemma input_returns prompt w v w' :
  input prompt w = Returns v w' ->
  the_bank w' = the_bank w
  /\ exists d, stdin w = (d, v) :: stdin w' /\ clock w' = d.
Proof.
  unfold input. destruct (stdin w) as [|[d line] rest]; [discriminate|].
  intros [= <- <-]. cbn. eauto.
Qed.

(** ** Reading a number *)

Section ReadLoops.

Variable parse_float : str -> option float.
Variable parse_int : str -> option Z.

Lemma last_cons {A} (x : A) l d : List.last (x :: l) d = List.last l x.
Proof.
  revert x d. induction l as [|y l IH]; intros x d; [reflexivity|].
  change (List.last (x :: y :: l) d) with (List.last (y :: l) d).
  now rewrite (IH y d), (IH y x).
Qed.

Lemma read_float_lines_skips prompt bad tail out day b :
  Forall (fun l => parse_float (strip (snd l)) = None) bad ->
  read_float_lines parse_float prompt (bad ++ tail) out day b
  = read_float_lines parse_float prompt tail
      (out ++ rejected prompt "Please enter a valid number." bad)
      (List.last (map fst bad) day) b.
Proof.
  intros Hbad. revert out day.
  induction Hbad as [|[d raw] bad Hraw Hbad IH]; intros out day.
  - cbn. now rewrite app_nil_r.
  - cbn [app read_float_lines]. cbn [snd] in Hraw. rewrite Hraw, IH.
    f_equal.
    + cbn. now rewrite <- !app_assoc.
    + cbn [map fst]. now rewrite last_cons.
Qed.

Lemma read_int_lines_skips prompt bad tail out day b :
  Forall (fun l => parse_int (strip (snd l)) = None) bad ->
  read_int_lines parse_int prompt (bad ++ tail) out day b
  = read_int_lines parse_int prompt tail
      (out ++ rejected prompt "Please enter a valid integer." bad)
      (List.last (map fst bad) day) b.
Proof.
  intros Hbad. revert out day.
  induction Hbad as [|[d raw] bad Hraw Hbad IH]; intros out day.
  - cbn. now rewrite app_nil_r.
  - cbn [app read_int_lines]. cbn [snd] in Hraw. rewrite Hraw, IH.
    f_equal.
    + cbn. now rewrite <- !app_assoc.
    + cbn [map fst]. now rewrite last_cons.
Qed.

(** X16.  [read_int] and [read_float] return the value of the first line
    that parses, trimmed: each line before it is answered with the
    message and a new prompt, the lines after it are left to be read, and
    the bank is not touched.  When no line parses, they end with
    [EOFError] once the input is used up. *)
Theorem read_loops_skip_bad_lines prompt w bad :
  (Forall (fun l => parse_int (strip (snd l)) = None) bad ->
   (forall d raw v rest,
       stdin w = bad ++ (d, raw) :: rest ->
       parse_int (strip raw) = Some v ->
       read_int parse_int prompt w
       = Returns v
           (mkWorld rest
              (stdout w ++ rejected prompt "Please enter a valid integer." bad
                        ++ [Asked prompt])
              d (the_bank w)))
   /\ (stdin w = bad ->
       exists w', read_int parse_int prompt w = Stops EOFError w'
                  /\ stdin w' = [] /\ the_bank w' = the_bank w))
  /\ (Forall (fun l => parse_float (strip (snd l)) = None) bad ->
      (forall d raw v rest,
          stdin w = bad ++ (d, raw) :: rest ->
          parse_float (strip raw) = Some v ->
          read_float parse_float prompt w
          = Returns v
              (mkWorld rest
                 (stdout w ++ rejected prompt "Please enter a valid number." bad
                           ++ [Asked prompt])
                 d (the_bank w)))
      /\ (stdin w = bad ->
          exists w', read_float parse_float prompt w = Stops EOFError w'
                     /\ stdin w' = [] /\ the_bank w' = the_bank w)).
Proof.
  split; intros Hbad; split.
  - intros d raw v rest Hin Hv. unfold read_int.
    rewrite Hin, read_int_lines_skips by exact Hbad.
    cbn [read_int_lines]. rewrite Hv. now rewrite <- app_assoc.
  - intros Hin. unfold read_int.
    rewrite Hin, <- (app_nil_r bad), read_int_lines_skips by exact Hbad.
    cbn [read_int_lines]. eauto.
  - intros d raw v rest Hin Hv. unfold read_float.
    rewrite Hin, read_float_lines_skips by exact Hbad.
    cbn [read_float_lines]. rewrite Hv. now rewrite <- app_assoc.
  - intros Hin. unfold read_float.
    rewrite Hin, <- (app_nil_r bad), read_float_lines_skips by exact Hbad.
    cbn [read_float_lines]. eauto.
Qed.

(** The loops as the source writes them: ask, parse, and on a line that
    does not parse print the message and start again. *)
Lemma read_int_unfold prompt w :
  read_int parse_int prompt w
  = io_bind (input prompt)
      (fun raw => match parse_int (strip raw) with
                  | Some v => io_ret v
                  | None => io_bind (print "Please enter a valid integer.")
                                    (fun _ => read_int parse_int prompt)
                  end) w.
Proof.
  destruct w as [lines out day b]. unfold read_int, io_bind, input. cbn.
  destruct lines as [|[d raw] rest]; [reflexivity|].
  cbn [read_int_lines]. now destruct (parse_int (strip raw)).
Qed.

Lemma read_float_unfold prompt w :
  read_float parse_float prompt w
  = io_bind (input prompt)
      (fun raw => match parse_float (strip raw) with
                  | Some v => io_ret v
                  | None => io_bind (print "Please enter a valid number.")
                                    (fun _ => read_float parse_float prompt)
                  end) w.
Proof.
  destruct w as [lines out day b]. unfold read_float, io_bind, input. cbn.
  destruct lines as [|[d raw] rest]; [reflexivity|].
  cbn [read_float_lines]. now destruct (parse_float (strip raw)).
Qed.

Lemma read_int_lines_mild P E prompt lines out day b :
  mild P E (mkWorld lines out day b)
       (read_int_lines parse_int prompt lines out day b)
  /\ the_bank (world_of (read_int_lines parse_int prompt lines out day b)) = b.
Proof.
  revert out day. induction lines as [|[d raw] rest IH]; intros out day.
  - cbn. split; [|reflexivity]. split; [|exact I].
    apply (leads_to_emit P (Asked prompt) (mkWorld [] out day b)).
  - cbn [read_int_lines].
    assert (Hstep : leads_to P (mkWorld ((d, raw) :: rest) out day b)
                             (mkWorld rest (out ++ [Asked prompt]) d b)).
    { split; [exists [(d, raw)]; reflexivity|].
      split; [exists [Asked prompt]; reflexivity|].
      exists []. split; [constructor | reflexivity]. }
    destruct (parse_int (strip raw)) as [v|].
    + cbn. split; [|reflexivity]. split; [exact Hstep | exact I].
    + destruct (IH ((out ++ [Asked prompt])
                      ++ [Printed "Please enter a valid integer."]) d)
        as [Hm Hb].
      split; [|exact Hb].
      eapply mild_from; [|exact Hm].
      eapply leads_to_trans; [exact Hstep|].
      apply (leads_to_emit P (Printed "Please enter a valid integer.")
               (mkWorld rest (out ++ [Asked prompt]) d b)).
Qed.

Lemma read_float_lines_mild P E prompt lines out day b :
  mild P E (mkWorld lines out day b)
       (read_float_lines parse_float prompt lines out day b)
  /\ the_bank (world_of (read_float_lines parse_float prompt lines out day b)) = b.
Proof.
  revert out day. induction lines as [|[d raw] rest IH]; intros out day.
  - cbn. split; [|reflexivity]. split; [|exact I].
    apply (leads_to_emit P (Asked prompt) (mkWorld [] out day b)).
  - cbn [read_float_lines].
    assert (Hstep : leads_to P (mkWorld ((d, raw) :: rest) out day b)
                             (mkWorld rest (out ++ [Asked prompt]) d b)).
    { split; [exists [(d, raw)]; reflexivity|].
      split; [exists [Asked prompt]; reflexivity|].
      exists []. split; [constructor | reflexivity]. }
    destruct (parse_float (strip raw)) as [v|].
    + cbn. split; [|reflexivity]. split; [exact Hstep | exact I].
    + destruct (IH ((out ++ [Asked prompt])
                      ++ [Printed "Please enter a valid number."]) d)
        as [Hm Hb].
      split; [|exact Hb].
      eapply mild_from; [|exact Hm].
      eapply leads_to_trans; [exact Hstep|].
      apply (leads_to_emit P (Printed "Please enter a valid number.")
               (mkWorld rest (out ++ [Asked prompt]) d b)).
Qed.

Lemma world_eta w : mkWorld (stdin w) (stdout w) (clock w) (the_bank w) = w.
Proof. now destruct w. Qed.

Lemma mild_read_int P E prompt w : mild P E w (read_int parse_int prompt w).
Proof.
  unfold read_int. rewrite <- (world_eta w) at 1.
  apply read_int_lines_mild.
Qed.

Lemma mild_read_float P E prompt w : mild P E w (read_float parse_float prompt w).
Proof.
  unfold read_float. rewrite <- (world_eta w) at 1.
  apply read_float_lines_mild.
Qed.

Lemma read_int_bank prompt w :
  the_bank (world_of (read_int parse_int prompt w)) = the_bank w.
Proof. unfold read_int. apply (read_int_lines_mild any_call no_exception). Qed.

Lemma read_float_bank prompt w :
  the_bank (world_of (read_float parse_float prompt w)) = the_bank w.
Proof. unfold read_float. apply (read_float_lines_mild any_call no_exception). Qed.

End ReadLoops.

Lemma read_loops_skip_bad_lines_witness :
  read_int parse_digits "Account number: "
    (mkWorld [(0, py "x"); (1, py ""); (1, py " 1001 "); (2, py "7")] [] 0 Bank_default)
  = Returns 1001
      (mkWorld [(2, py "7")]
         [Asked "Account number: "; Printed "Please enter a valid integer.";
          Asked "Account number: "; Printed "Please enter a valid integer.";
          Asked "Account number: "]
         1 Bank_default).
Proof.
  destruct (read_loops_skip_bad_lines parse_amount parse_digits "Account number: "
              (mkWorld [(0, py "x"); (1, py ""); (1, py " 1001 "); (2, py "7")] [] 0 Bank_default)
              [(0, py "x"); (1, py "")]) as [[Hint _] _].
  - repeat constructor.
  - apply (Hint 1 (py " 1001 ") 1001 [(2, py "7")]); reflexivity.
Defined.

(** ** Calls on the bank *)

Lemma deposit_raises amount self e :
  raised (deposit amount self) = Some e -> is_ValueError e = true.
Proof.
  rewrite deposit_eq.
  destruct (amount <=? 0)%float; cbn; [now intros [= <-] | discriminate].
Qed.

Lemma withdraw_raises today amount self e :
  raised (withdraw today amount self) = Some e -> is_ValueError e = true.
Proof.
  rewrite withdraw_eq. destruct (amount <=? 0)%float; cbn; [now intros [= <-]|].
  destruct (balance _ <? amount)%float; cbn; [now intros [= <-]|].
  destruct ((0 <? _)%float && (_ <? amount)%float); cbn; [now intros [= <-] | discriminate].
Qed.

Lemma apply_interest_raises rate self e :
  raised (apply_interest rate self) = Some e -> is_ValueError e = true.
Proof.
  rewrite apply_interest_eq.
  destruct (rate <? 0)%float; cbn; [now intros [= <-] | discriminate].
Qed.

Lemma str_never_raises today self : raised (__str__ today self) = None.
Proof.
  unfold_method. now destruct (negb (last_withdraw_date self =? today)).
Qed.

Lemma open_account_raises today name initial_deposit limit self e :
  raised (open_account today name initial_deposit limit self) = Some e ->
  is_ValueError e = true.
Proof.
  rewrite open_account_eq.
  destruct (negb _); cbn; [now intros [= <-]|].
  destruct (initial_deposit <? 0)%float; cbn; [now intros [= <-]|].
  destruct (limit <? 0)%float; cbn; [now intros [= <-] | discriminate].
Qed.

Lemma bank_call_on_account_get today num c self k :
  get k (bank_call today (OnAccount num c) self)
  = if decide (k = num) then account_call today c <$> get num self
    else get k self.
Proof.
  cbn. unfold get.
  destruct (_accounts self !! num) as [acc|] eqn:Hnum; cbn.
  - case_decide as Hk.
    + subst k. apply lookup_insert_eq.
    + apply lookup_insert_ne. congruence.
  - case_decide as Hk; [now subst k | reflexivity].
Qed.

Lemma call_account_spec {A} P E num (m : Z -> Method Account A) c w acc :
  get num (the_bank w) = Some acc ->
  P (clock w, OnAccount num c) ->
  (forall a, state_of (m (clock w) a) = account_call (clock w) c a) ->
  (forall a e, raised (m (clock w) a) = Some e -> E e) ->
  mild P E w (call_account num m w)
  /\ world_of (call_account num m w)
     = set_bank (bank_call (clock w) (OnAccount num c) (the_bank w)) w.
Proof.
  intros Hget HP Hstate Hraise.
  assert (Hworld : world_of (call_account num m w)
                   = set_bank (bank_call (clock w) (OnAccount num c) (the_bank w)) w).
  { unfold call_account, on_account. cbn [bank_call]. rewrite Hget.
    specialize (Hstate acc).
    destruct (m (clock w) acc) as [v a'|e a']; cbn in *; now subst a'. }
  split; [|exact Hworld]. split.
  - rewrite Hworld. now apply leads_to_call.
  - unfold call_account, on_account. rewrite Hget.
    specialize (Hraise acc).
    destruct (m (clock w) acc) as [v a'|e a']; cbn in *; [exact I|].
    now apply Hraise.
Qed.

Lemma show_account_spec P E num w acc :
  get num (the_bank w) = Some acc ->
  P (clock w, OnAccount num Str) ->
  mild P E w (show_account num w)
  /\ the_bank (world_of (show_account num w))
     = bank_call (clock w) (OnAccount num Str) (the_bank w)
  /\ clock (world_of (show_account num w)) = clock w.
Proof.
  intros Hget HP.
  destruct (call_account_spec P E num __str__ Str w acc Hget HP) as [Hm Hw].
  - reflexivity.
  - intros a e. now rewrite str_never_raises.
  - unfold show_account, io_bind.
    destruct (call_account num __str__ w) as [line w1|x w1]; cbn in Hw; subst w1.
    + split; [|split; reflexivity].
      destruct Hm as [Hl _]. split; [|exact I].
      eapply leads_to_trans; [exact Hl | apply leads_to_emit].
    + split; [exact Hm | split; reflexivity].
Qed.

Lemma mild_print_header P E title w : mild P E w (print_header title w).
Proof.
  unfold print_header.
  apply mild_bind; [apply mild_print|]. intros _ w1 _.
  apply mild_bind; [apply mild_print|]. intros _ w2 _. apply mild_print.
Qed.

Lemma mild_pause P E w : mild P E w (pause w).
Proof.
  unfold pause. apply mild_bind; [apply mild_input|]. intros _ w1 _. apply mild_ret.
Qed.

(** What the screens do once [bank.get] has found the account: the
    method, a line about it, the account; and the message of the
    [ValueError] when the method raises. *)
Lemma account_try_mild {A} num (m : Z -> Method Account A) c (o : A -> Output)
    w acc :
  get num (the_bank w) = Some acc ->
  (forall t a, state_of (m t a) = account_call t c a) ->
  (forall t a e, raised (m t a) = Some e -> is_ValueError e = true) ->
  mild (on_number num) no_exception w
    (try_except
       (io_bind (call_account num m)
          (fun v => io_bind (fun w' => Returns tt (emit (o v) w'))
                            (fun _ => show_account num)))
       is_ValueError print_error w).
Proof.
  intros Hget Hstate Hraise.
  apply mild_try with (E := fun e => is_ValueError e = true).
  - destruct (call_account_spec (on_number num)
                (fun e => is_ValueError e = true) num m c w acc Hget)
      as [Hm Hw].
    + exists c. reflexivity.
    + intros a. apply Hstate.
    + intros a e. apply Hraise.
    + apply mild_bind; [exact Hm|]. intros v w1 H1.
      rewrite H1 in Hw. cbn [world_of] in Hw. subst w1.
      apply mild_bind; [split; [apply leads_to_emit | exact I]|].
      intros u w2 H2. apply (f_equal world_of) in H2.
      cbn [world_of] in H2. subst w2.
      eapply show_account_spec.
      * unfold emit, set_bank. cbn [the_bank clock].
        rewrite bank_call_on_account_get, Hget.
        case_decide; [reflexivity | congruence].
      * exists Str. reflexivity.
  - intros e He. exact He.
  - intros e w'. apply mild_print_error.
Qed.

Lemma call_open_spec (P : Z * BankCall -> Prop) name initial limit w :
  P (clock w, Open name initial limit) ->
  mild P (fun e => is_ValueError e = true) w
       (call_bank (fun today => open_account today name initial limit) w)
  /\ (forall acc w',
         call_bank (fun today => open_account today name initial limit) w
         = Returns acc w' ->
         get (number acc) (the_bank w') = Some acc /\ clock w' = clock w).
Proof.
  intros HP. unfold call_bank.
  pose proof (leads_to_call P w (clock w) (Open name initial limit) HP) as Hl.
  cbn [bank_call] in Hl.
  destruct (open_account (clock w) name initial limit (the_bank w))
    as [acc b|e b] eqn:Hopen; cbn [state_of] in Hl.
  - split; [split; [exact Hl | exact I]|].
    intros acc' w' [= <- <-].
    apply open_account_ok in Hopen as (Hacc & -> & _).
    split; [|reflexivity]. unfold get. cbn.
    rewrite Hacc at 1. cbn. apply lookup_insert_eq.
  - split; [|discriminate]. split; [exact Hl|].
    apply (open_account_raises (clock w) name initial limit (the_bank w)).
    now rewrite Hopen.
Qed.

Lemma call_close_spec (P : Z * BankCall -> Prop) num w :
  P (clock w, Close num) ->
  mild P (fun _ => True) w (call_bank (fun _ => close_account num) w).
Proof.
  intros HP. unfold call_bank.
  pose proof (leads_to_call P w (clock w) (Close num) HP) as Hl.
  cbn [bank_call] in Hl.
  destruct (close_account num (the_bank w)) as [acc b|e b];
    cbn [state_of] in Hl; (split; [exact Hl | exact I]).
Qed.

Lemma registered_numbers_spec b n :
  n ∈ registered_numbers b <-> is_Some (get n b).
Proof.
  unfold registered_numbers, get.
  rewrite merge_sort_Permutation, elem_of_elements. apply elem_of_dom.
Qed.

Lemma show_account_returns (P : Z * BankCall -> Prop) num w acc :
  get num (the_bank w) = Some acc ->
  P (clock w, OnAccount num Str) ->
  exists w', show_account num w = Returns tt w'
             /\ leads_to P w w'
             /\ the_bank w' = bank_call (clock w) (OnAccount num Str) (the_bank w)
             /\ clock w' = clock w.
Proof.
  intros Hget HP.
  destruct (show_account_spec P no_exception num w acc Hget HP) as ([Hl _] & Hb & Hc).
  destruct (show_account num w) as [[] w'|x w'] eqn:Hshow; cbn [world_of] in *.
  - exists w'. split; [reflexivity|]. split; [exact Hl|]. split; assumption.
  - exfalso. revert Hshow.
    unfold show_account, io_bind, call_account, on_account. rewrite Hget.
    pose proof (str_never_raises (clock w) acc) as Hnever.
    destruct (__str__ (clock w) acc); [discriminate | discriminate Hnever].
Qed.

Lemma print_accounts_spec (P : Z * BankCall -> Prop) nums w :
  (forall n, n ∈ nums -> is_Some (get n (the_bank w))) ->
  (forall n, n ∈ nums -> P (clock w, OnAccount n Str)) ->
  exists w', print_accounts nums w = Returns tt w'
             /\ leads_to P w w'
             /\ the_bank w'
                = foldl (fun b n => bank_call (clock w) (OnAccount n Str) b)
                        (the_bank w) nums.
Proof.
  revert w. induction nums as [|n nums IH]; intros w Hreg HP.
  - exists w. split; [reflexivity|]. split; [apply leads_to_refl | reflexivity].
  - destruct (Hreg n) as [acc Hacc]; [apply elem_of_cons; now left|].
    destruct (show_account_returns P n w acc Hacc) as (w1 & Hshow & Hl & Hb & Hc);
      [apply HP, elem_of_cons; now left|].
    destruct (IH w1) as (w2 & Hprint & Hl2 & Hb2).
    + intros k Hk. rewrite Hb, bank_call_on_account_get.
      case_decide as Hkn.
      * subst k. rewrite Hacc. cbn. eauto.
      * apply Hreg, elem_of_cons. now right.
    + intros k Hk. rewrite Hc. apply HP, elem_of_cons. now right.
    + exists w2. cbn [print_accounts foldl]. unfold io_bind.
      rewrite Hshow. split; [exact Hprint|].
      split; [eapply leads_to_trans; eassumption|].
      now rewrite Hb2, Hb, Hc.
Qed.

Lemma account_call_str d a : account_call d Str a = rolled d a.
Proof. apply str_state. Qed.

Lemma rolled_all d nums b k :
  get k (foldl (fun b n => bank_call d (OnAccount n Str) b) b nums)
  = if decide (k ∈ nums) then rolled d <$> get k b else get k b.
Proof.
  revert b. induction nums as [|n nums IH]; intros b; cbn [foldl].
  - case_decide as Hk; [|reflexivity]. now apply elem_of_nil in Hk.
  - rewrite IH, !bank_call_on_account_get.
    destruct (decide (k = n)) as [->|Hkn].
    + rewrite (decide_True (P := n ∈ n :: nums)) by (apply elem_of_cons; now left).
      destruct (get n b) as [a|]; cbn [fmap option_fmap option_map].
      * rewrite account_call_str.
        case_decide; cbn [fmap option_fmap option_map];
          [now rewrite rolled_idem | reflexivity].
      * now case_decide.
    + case_decide as Hin.
      * now rewrite (decide_True (P := k ∈ n :: nums))
          by (apply elem_of_cons; now right).
      * rewrite (decide_False (P := k ∈ n :: nums)); [reflexivity|].
        intros [?|?]%elem_of_cons; contradiction.
Qed.

Lemma rolled_all_next d nums b :
  _next (foldl (fun b n => bank_call d (OnAccount n Str) b) b nums) = _next b.
Proof.
  revert b. induction nums as [|n nums IH]; intros b; cbn [foldl]; [reflexivity|].
  rewrite IH. cbn. now destruct (get n b).
Qed.

(** A history of calls on one number. *)
Lemma on_number_frame num cs b :
  Forall (on_number num) cs ->
  _next (bank_run cs b) = _next b
  /\ dom (_accounts (bank_run cs b)) = dom (_accounts b)
  /\ (forall k, k <> num -> get k (bank_run cs b) = get k b).
Proof.
  intros Hcs. revert b.
  induction Hcs as [|[t c] cs [ac Hc] Hcs IH]; intros b.
  - cbn. repeat split.
  - cbn in Hc. subst c. cbn [bank_run].
    destruct (IH (bank_call t (OnAccount num ac) b)) as (Hn & Hd & Hk).
    split; [|split].
    + rewrite Hn. cbn. now destruct (get num b).
    + rewrite Hd. cbn. unfold get.
      destruct (_accounts b !! num) as [a|] eqn:Ha; cbn; [|reflexivity].
      rewrite dom_insert_L.
      apply subseteq_union_1_L, singleton_subseteq_l, elem_of_dom. eauto.
    + intros k Hkn. rewrite (Hk k Hkn), bank_call_on_account_get.
      now rewrite decide_False.
Qed.

(** ** The screens *)

Section Screens.

Variable parse_float : str -> option float.
Variable parse_int : str -> option Z.

Lemma screen_deposit_mild w :
  exists num, mild (on_number num) no_exception w
                   (screen_deposit parse_float parse_int w).
Proof.
  unfold screen_deposit.
  apply (mild_bind_ex on_number no_exception _ _ w 0);
    [intros i; apply mild_print_header|]. intros u1 w1 _.
  apply (mild_bind_ex on_number no_exception _ _ w1 0);
    [intros i; apply mild_read_int|]. intros num w2 _. exists num.
  apply mild_bind; [apply mild_read_float|]. intros amount w3 _.
  apply mild_bind; [apply (mild_ret _ _ (get num (the_bank w3)))|].
  intros acc w4 H4. unfold bank_get in H4. injection H4 as <- <-.
  apply mild_bind; [|intros; apply mild_pause].
  destruct (get num (the_bank w3)) as [a|] eqn:Hget; [|apply mild_print].
  apply (account_try_mild num (fun _ => deposit amount) (Deposit amount)
           (fun _ => Printed "Deposit successful.") w3 a Hget).
  - intros t a0. reflexivity.
  - intros t a0 e. apply deposit_raises.
Qed.

Lemma screen_withdraw_mild w :
  exists num, mild (on_number num) no_exception w
                   (screen_withdraw parse_float parse_int w).
Proof.
  unfold screen_withdraw.
  apply (mild_bind_ex on_number no_exception _ _ w 0);
    [intros i; apply mild_print_header|]. intros u1 w1 _.
  apply (mild_bind_ex on_number no_exception _ _ w1 0);
    [intros i; apply mild_read_int|]. intros num w2 _. exists num.
  apply mild_bind; [apply mild_read_float|]. intros amount w3 _.
  apply mild_bind; [apply (mild_ret _ _ (get num (the_bank w3)))|].
  intros acc w4 H4. unfold bank_get in H4. injection H4 as <- <-.
  apply mild_bind; [|intros; apply mild_pause].
  destruct (get num (the_bank w3)) as [a|] eqn:Hget; [|apply mild_print].
  apply (account_try_mild num (fun today => withdraw today amount)
           (Withdraw amount)
           (fun _ => Printed "Withdrawal successful.") w3 a Hget).
  - intros t a0. reflexivity.
  - intros t a0 e. apply withdraw_raises.
Qed.

Lemma screen_interest_mild w :
  exists num, mild (on_number num) no_exception w
                   (screen_interest parse_float parse_int w).
Proof.
  unfold screen_interest.
  apply (mild_bind_ex on_number no_exception _ _ w 0);
    [intros i; apply mild_print_header|]. intros u1 w1 _.
  apply (mild_bind_ex on_number no_exception _ _ w1 0);
    [intros i; apply mild_read_int|]. intros num w2 _. exists num.
  apply mild_bind; [apply mild_read_float|]. intros rate w3 _.
  apply mild_bind; [apply (mild_ret _ _ (get num (the_bank w3)))|].
  intros acc w4 H4. unfold bank_get in H4. injection H4 as <- <-.
  apply mild_bind; [|intros; apply mild_pause].
  destruct (get num (the_bank w3)) as [a|] eqn:Hget; [|apply mild_print].
  apply (account_try_mild num (fun _ => apply_interest rate)
           (ApplyInterest rate) PrintedInterest w3 a Hget).
  - intros t a0. reflexivity.
  - intros t a0 e. apply apply_interest_raises.
Qed.

Lemma screen_lookup_mild w :
  exists num, mild (on_number num) no_exception w
                   (screen_lookup parse_int w).
Proof.
  unfold screen_lookup.
  apply (mild_bind_ex on_number no_exception _ _ w 0);
    [intros i; apply mild_print_header|]. intros u1 w1 _.
  apply (mild_bind_ex on_number no_exception _ _ w1 0);
    [intros i; apply mild_read_int|]. intros num w2 _. exists num.
  apply mild_bind; [apply (mild_ret _ _ (get num (the_bank w2)))|].
  intros acc w4 H4. unfold bank_get in H4. injection H4 as <- <-.
  apply mild_bind; [|intros; apply mild_pause].
  destruct (get num (the_bank w2)) as [a|] eqn:Hget; [|apply mild_print].
  apply (show_account_spec (on_number num) no_exception num w2 a Hget).
  exists Str. reflexivity.
Qed.

Lemma screen_open_account_mild w :
  mild any_call no_exception w (screen_open_account parse_float w).
Proof.
  unfold screen_open_account.
  apply mild_bind; [apply mild_print_header|]. intros u1 w1 _.
  apply mild_bind; [apply mild_input|]. intros raw w2 _.
  apply mild_bind; [apply mild_read_float|]. intros initial w3 _.
  apply mild_bind; [apply mild_read_float|]. intros limit w4 _.
  apply mild_bind; [|intros; apply mild_pause].
  apply mild_try with (E := fun e => is_ValueError e = true).
  - destruct (call_open_spec any_call (strip raw) initial limit w4 I) as [Hm Hok].
    apply mild_bind; [exact Hm|]. intros acc w5 H5.
    destruct (Hok acc w5 H5) as [Hget Hclock].
    apply mild_bind; [apply mild_print|]. intros u2 w6 H6.
    apply print_returns in H6 as ->.
    eapply proj1, (show_account_spec any_call _ (number acc) _ acc);
      [exact Hget | exact I].
  - intros e He. exact He.
  - intros e w'. apply mild_print_error.
Qed.

Lemma screen_close_account_mild w :
  mild any_call no_exception w (screen_close_account parse_int w).
Proof.
  unfold screen_close_account.
  apply mild_bind; [apply mild_print_header|]. intros u1 w1 _.
  apply mild_bind; [apply mild_read_int|]. intros num w2 _.
  apply mild_bind; [|intros; apply mild_pause].
  apply mild_try with (E := fun _ => True).
  - apply mild_bind; [apply (mild_ret _ _ (get num (the_bank w2)))|].
    intros acc w3 H3. unfold bank_get in H3. injection H3 as <- <-.
    destruct (get num (the_bank w2)) as [a|] eqn:Hget; [|apply mild_print].
    apply mild_bind; [apply mild_print|]. intros u2 w4 H4.
    apply print_returns in H4 as ->.
    apply mild_bind;
      [eapply proj1, (show_account_spec any_call _ num _ a);
       [exact Hget | exact I]|].
    intros u3 w5 _.
    apply mild_bind; [apply mild_input|]. intros raw w6 _.
    destruct (str_eqb _ _); [|apply mild_print].
    apply mild_bind; [apply call_close_spec; exact I|].
    intros acc w7 _. apply mild_print.
  - intros e _. now destruct e.
  - intros e w'. apply mild_print_error.
Qed.

Lemma pause_bank w : the_bank (world_of (pause w)) = the_bank w.
Proof.
  unfold pause, io_bind, input, io_ret.
  now destruct (stdin w) as [|[d line] rest].
Qed.

Lemma screen_list_spec w :
  mild any_call no_exception w (screen_list w)
  /\ _next (the_bank (world_of (screen_list w))) = _next (the_bank w)
  /\ forall k, get k (the_bank (world_of (screen_list w)))
               = rolled (clock w) <$> get k (the_bank w).
Proof.
  unfold screen_list, io_bind.
  change (print_header "All Accounts" w)
    with (Returns tt (emit (Printed rule)
                        (emit (Printed "All Accounts")
                           (emit (Printed (newline +:+ rule)) w)))).
  cbv beta iota.
  set (w1 := emit (Printed rule) _).
  assert (Hl1 : leads_to any_call w w1).
  { unfold w1. eapply leads_to_trans; [|apply leads_to_emit].
    eapply leads_to_trans; apply leads_to_emit. }
  assert (Hb1 : the_bank w1 = the_bank w) by reflexivity.
  assert (Hc1 : clock w1 = clock w) by reflexivity.
  destruct (registered_numbers (the_bank w1)) as [|n nums] eqn:Hnums.
  - cbv beta iota.
    change (print "No accounts yet." w1)
      with (Returns tt (emit (Printed "No accounts yet.") w1)).
    cbv beta iota.
    split; [|split].
    + eapply mild_from; [|apply mild_pause].
      eapply leads_to_trans; [exact Hl1 | apply leads_to_emit].
    + now rewrite pause_bank.
    + intros k. rewrite pause_bank.
      change (the_bank (emit (Printed "No accounts yet.") w1)) with (the_bank w).
      destruct (get k (the_bank w)) as [a|] eqn:Hk; [|reflexivity].
      exfalso.
      assert (Hin : k ∈ registered_numbers (the_bank w1))
        by (apply registered_numbers_spec; rewrite Hb1, Hk; eauto).
      rewrite Hnums in Hin. now apply elem_of_nil in Hin.
  - cbv beta iota. rewrite <- Hnums.
    destruct (print_accounts_spec any_call
                (registered_numbers (the_bank w1)) w1) as (w2 & Hprint & Hl2 & Hb2).
    { intros k Hk. now apply registered_numbers_spec. }
    { intros k Hk. exact I. }
    rewrite Hprint.
    split; [|split].
    + eapply mild_from; [|apply mild_pause].
      eapply leads_to_trans; eassumption.
    + rewrite pause_bank, Hb2. apply rolled_all_next.
    + intros k. rewrite pause_bank, Hb2, rolled_all, Hc1.
      change (the_bank w1) with (the_bank w).
      case_decide as Hin; [reflexivity|].
      destruct (get k (the_bank w)) as [a|] eqn:Hk; [|reflexivity].
      exfalso. apply Hin, registered_numbers_spec.
      change (the_bank w1) with (the_bank w). rewrite Hk. eauto.
Qed.

End Screens.

(** ** The menu *)

Lemma bank_run_well_registered cs self :
  (forall n acc, get n self = Some acc -> well_registered n acc) ->
  forall n acc, get n (bank_run cs self) = Some acc -> well_registered n acc.
Proof.
  revert self. induction cs as [|[t c] cs IH]; intros self Hall; cbn.
  - exact Hall.
  - apply IH, bank_call_well_registered, Hall.
Qed.

Lemma mild_print_menu P E w : mild P E w (print_menu w).
Proof.
  unfold print_menu.
  apply mild_bind; [apply mild_print_header|]. intros u0 w0 _.
  do 7 (apply mild_bind; [apply mild_print|]; intros ? ? _).
  apply mild_print.
Qed.

Lemma print_menu_returns w :
  exists w1, print_menu w = Returns tt w1 /\ stdin w1 = stdin w.
Proof. eexists. split; reflexivity. Qed.

Section Menu.

Variable parse_float : str -> option float.
Variable parse_int : str -> option Z.

Lemma menu_choice_mild choice w :
  mild any_call no_exception w (menu_choice parse_float parse_int choice w).
Proof.
  assert (Hany : forall num (r : Run unit),
             mild (on_number num) no_exception w r ->
             mild any_call no_exception w r).
  { intros num r. apply mild_weaken; [intros tc _; exact I | auto]. }
  unfold menu_choice.
  destruct (str_eqb choice (py "1"));
    [apply mild_bind; [apply screen_open_account_mild | intros; apply mild_ret]|].
  destruct (str_eqb choice (py "2"));
    [apply mild_bind; [apply screen_close_account_mild | intros; apply mild_ret]|].
  destruct (str_eqb choice (py "3")).
  { apply mild_bind; [|intros; apply mild_ret].
    destruct (screen_deposit_mild parse_float parse_int w) as [num H].
    exact (Hany num _ H). }
  destruct (str_eqb choice (py "4")).
  { apply mild_bind; [|intros; apply mild_ret].
    destruct (screen_withdraw_mild parse_float parse_int w) as [num H].
    exact (Hany num _ H). }
  destruct (str_eqb choice (py "5")).
  { apply mild_bind; [|intros; apply mild_ret].
    destruct (screen_interest_mild parse_float parse_int w) as [num H].
    exact (Hany num _ H). }
  destruct (str_eqb choice (py "6")).
  { apply mild_bind; [|intros; apply mild_ret].
    destruct (screen_lookup_mild parse_int w) as [num H].
    exact (Hany num _ H). }
  destruct (str_eqb choice (py "7"));
    [apply mild_bind; [apply screen_list_spec | intros; apply mild_ret]|].
  destruct (str_eqb choice (py "0"));
    [apply mild_bind; [apply mild_print | intros; apply mild_ret]|].
  apply mild_bind; [apply mild_print|]. intros u1 w1 _.
  apply mild_bind; [apply mild_pause | intros; apply mild_ret].
Qed.

Lemma menu_choice_false choice w w' :
  menu_choice parse_float parse_int choice w = Returns false w' ->
  choice = py "0" /\ w' = emit (Printed (newline +:+ "Goodbye!")) w.
Proof.
  unfold menu_choice.
  repeat match goal with
         | |- context [if str_eqb choice ?s then io_bind ?m _ else _] =>
             destruct (str_eqb choice s) eqn:?;
             [unfold io_bind at 1; destruct (m w); discriminate|]
         end.
  destruct (str_eqb choice (py "0")) eqn:H0.
  - apply str_eqb_eq in H0. intros [= <-]. now split.
  - unfold io_bind, print.
    destruct (pause _); discriminate.
Qed.

Lemma menu_turn_mild w :
  mild any_call no_exception w (menu_turn parse_float parse_int w).
Proof.
  unfold menu_turn.
  apply mild_bind; [apply mild_print_menu|]. intros u1 w1 _.
  apply mild_bind; [apply mild_input|]. intros raw w2 _.
  apply menu_choice_mild.
Qed.

Lemma menu_turn_takes_line w b w' :
  menu_turn parse_float parse_int w = Returns b w' ->
  (length (stdin w') < length (stdin w))%nat.
Proof.
  unfold menu_turn, io_bind.
  destruct (print_menu_returns w) as (w1 & H1 & Hin). rewrite H1.
  unfold input. destruct (stdin w1) as [|[d line] rest] eqn:Hw1; [discriminate|].
  intros Hchoice.
  pose proof (menu_choice_mild (strip line)
                (mkWorld rest (stdout w1 ++ [Asked (newline +:+ "Choose: ")])
                         d (the_bank w1))) as [Hl _].
  rewrite Hchoice in Hl. destruct Hl as ([taken Ht] & _).
  cbn [world_of stdin] in Ht.
  rewrite <- Hin, Ht. cbn [length]. rewrite length_app. lia.
Qed.

Lemma menu_loop_total fuel w :
  (length (stdin w) < fuel)%nat ->
  exists r, menu_loop parse_float parse_int fuel w = Some r.
Proof.
  revert w. induction fuel as [|fuel IH]; intros w Hfuel; [lia|].
  cbn [menu_loop].
  destruct (menu_turn parse_float parse_int w) as [[|] w'|x w'] eqn:Hturn;
    [|eauto|eauto].
  apply IH. apply menu_turn_takes_line in Hturn. lia.
Qed.

Lemma menu_loop_mild fuel w r :
  menu_loop parse_float parse_int fuel w = Some r ->
  mild any_call no_exception w r.
Proof.
  revert w. induction fuel as [|fuel IH]; intros w; [discriminate|].
  cbn [menu_loop]. pose proof (menu_turn_mild w) as Hturn.
  destruct (menu_turn parse_float parse_int w) as [[|] w'|x w'].
  - intros Hloop. destruct Hturn as [Hl _].
    eapply mild_from; [exact Hl | now apply IH].
  - intros [= <-]. exact Hturn.
  - intros [= <-]. exact Hturn.
Qed.

Lemma menu_loop_goodbye fuel w w' :
  menu_loop parse_float parse_int fuel w = Some (Returns tt w') ->
  last (stdout w') = Some (Printed (newline +:+ "Goodbye!")).
Proof.
  revert w. induction fuel as [|fuel IH]; intros w; [discriminate|].
  cbn [menu_loop].
  destruct (menu_turn parse_float parse_int w) as [[|] w1|x w1] eqn:Hturn.
  - apply IH.
  - intros [= <-]. revert Hturn. unfold menu_turn, io_bind.
    destruct (print_menu w) as [u w2|x w2]; [|discriminate].
    destruct (input _ w2) as [raw w3|x w3]; [|discriminate].
    intros Hfalse. apply menu_choice_false in Hfalse as [_ ->].
    cbn [emit stdout]. apply last_snoc.
  - discriminate.
Qed.

(** X17.  Whatever is entered and whatever the bank holds, a screen
    never ends with an exception of the bank: it returns, or stops at the
    end of the input.  It takes lines from the front of the input only,
    adds to what was written, and takes the bank through calls of its
    methods only. *)
Theorem screens_catch_errors w :
  mild any_call no_exception w (screen_open_account parse_float w)
  /\ mild any_call no_exception w (screen_close_account parse_int w)
  /\ mild any_call no_exception w (screen_deposit parse_float parse_int w)
  /\ mild any_call no_exception w (screen_withdraw parse_float parse_int w)
  /\ mild any_call no_exception w (screen_interest parse_float parse_int w)
  /\ mild any_call no_exception w (screen_lookup parse_int w)
  /\ mild any_call no_exception w (screen_list w).
Proof.
  assert (Hany : forall num (r : Run unit),
             mild (on_number num) no_exception w r ->
             mild any_call no_exception w r).
  { intros num r. apply mild_weaken; [intros tc _; exact I | auto]. }
  split; [apply screen_open_account_mild|].
  split; [apply screen_close_account_mild|].
  split; [destruct (screen_deposit_mild parse_float parse_int w) as [n H];
          exact (Hany n _ H)|].
  split; [destruct (screen_withdraw_mild parse_float parse_int w) as [n H];
          exact (Hany n _ H)|].
  split; [destruct (screen_interest_mild parse_float parse_int w) as [n H];
          exact (Hany n _ H)|].
  split; [destruct (screen_lookup_mild parse_int w) as [n H];
          exact (Hany n _ H)|].
  apply screen_list_spec.
Qed.

(** X18.  [main_menu] comes to an end on every input: it returns, or
    stops with [EOFError] when the input runs out, never with an
    exception of the bank.  The lines it has not read are an end of the
    input, and the bank it leaves is what a history of calls makes of
    [Bank()]; so every account in it is registered under its own number,
    with a trimmed, non-empty owner. *)
Theorem main_menu_runs lines day :
  exists r,
    main_menu parse_float parse_int lines day = Some r
    /\ (forall e w, r <> Stops (Propagated e) w)
    /\ (exists taken, lines = taken ++ stdin (world_of r))
    /\ (exists cs, the_bank (world_of r) = bank_run cs Bank_default)
    /\ (forall n acc,
           get n (the_bank (world_of r)) = Some acc ->
           well_registered n acc).
Proof.
  unfold main_menu.
  destruct (menu_loop_total (S (length lines)) (mkWorld lines [] day Bank_default))
    as [r Hr]; [cbn; lia|].
  exists r. split; [exact Hr|].
  apply menu_loop_mild in Hr as ((Hin & _ & (cs & _ & Hcs)) & Hstop).
  cbn [stdin the_bank] in Hin, Hcs.
  split; [|split; [exact Hin|split; [eauto|]]].
  - intros e w ->. exact Hstop.
  - intros n acc. rewrite Hcs. revert n acc. apply bank_run_well_registered.
    intros k a. unfold get. cbn. now rewrite lookup_empty.
Qed.

(** X19.  Entering [0] at the menu prints the farewell and leaves the
    loop, with the bank as it was; [main_menu] returns only that way, so
    the farewell is the last thing written when it does.  A choice that
    is none of [0] to [7] leaves the bank as it was. *)
Theorem leaving_the_menu :
  (forall w d raw rest,
      stdin w = (d, raw) :: rest -> strip raw = py "0" ->
      exists w', menu_turn parse_float parse_int w = Returns false w'
                 /\ stdin w' = rest
                 /\ the_bank w' = the_bank w
                 /\ last (stdout w') = Some (Printed (newline +:+ "Goodbye!")))
  /\ (forall lines day w',
      main_menu parse_float parse_int lines day = Some (Returns tt w') ->
      last (stdout w') = Some (Printed (newline +:+ "Goodbye!")))
  /\ (forall w choice,
      Forall (fun s => choice <> s) (map py ["0"; "1"; "2"; "3"; "4"; "5"; "6"; "7"]) ->
      the_bank (world_of (menu_choice parse_float parse_int choice w))
      = the_bank w).
Proof.
  split; [|split].
  - intros w d raw rest Hin Hraw. unfold menu_turn, io_bind.
    destruct (print_menu_returns w) as (w1 & H1 & Hin1). rewrite H1.
    assert (Hb1 : the_bank w1 = the_bank w).
    { injection H1 as <-. reflexivity. }
    unfold input. rewrite Hin1, Hin, Hraw.
    eexists. split; [reflexivity|]. cbn [emit stdin the_bank stdout].
    split; [reflexivity|]. split; [exact Hb1 | apply last_snoc].
  - intros lines day w'. apply menu_loop_goodbye.
  - intros w choice Hnone. cbn [map] in Hnone.
    repeat match goal with
           | H : Forall _ (_ :: _) |- _ =>
               apply Forall_cons in H as [? H]
           end.
    unfold menu_choice.
    repeat match goal with
           | |- context [str_eqb choice ?s] =>
               let He := fresh "He" in
               destruct (str_eqb choice s) eqn:He;
                 [apply str_eqb_eq in He; congruence|]
           end.
    unfold io_bind, print. cbv beta iota.
    match goal with
    | |- context [pause ?x] =>
        pose proof (pause_bank x) as Hp; destruct (pause x)
    end; exact Hp.
Qed.

(** X20.  A deposit, withdrawal, interest or lookup screen changes at
    most one account, one that is registered: every other account, the
    set of registered numbers and [_next] are as before, whatever is
    entered. *)
Theorem account_screens_touch_one_account w :
  Forall (fun r : Run unit =>
            exists num,
              _next (the_bank (world_of r)) = _next (the_bank w)
              /\ dom (_accounts (the_bank (world_of r)))
                 = dom (_accounts (the_bank w))
              /\ forall k, k <> num ->
                           get k (the_bank (world_of r)) = get k (the_bank w))
    [screen_deposit parse_float parse_int w;
     screen_withdraw parse_float parse_int w;
     screen_interest parse_float parse_int w;
     screen_lookup parse_int w].
Proof.
  assert (Hframe : forall (r : Run unit),
             (exists num, mild (on_number num) no_exception w r) ->
             exists num,
               _next (the_bank (world_of r)) = _next (the_bank w)
               /\ dom (_accounts (the_bank (world_of r)))
                  = dom (_accounts (the_bank w))
               /\ forall k, k <> num ->
                            get k (the_bank (world_of r)) = get k (the_bank w)).
  { intros r (num & (_ & _ & (cs & Hcs & Hb)) & _). exists num.
    rewrite Hb. now apply on_number_frame. }
  repeat constructor; apply Hframe.
  - apply screen_deposit_mild.
  - apply screen_withdraw_mild.
  - apply screen_interest_mild.
  - apply screen_lookup_mild.
Qed.

(** X21.  Listing the accounts writes to them: [screen_list] leaves
    every registered account rolled over to the day it is called on
    ([last_withdraw_date] that day, the counter reset if the day is new),
    and changes nothing else in the bank. *)
Theorem screen_list_rolls_over w :
  _next (the_bank (world_of (screen_list w))) = _next (the_bank w)
  /\ forall k, get k (the_bank (world_of (screen_list w)))
               = rolled (clock w) <$> get k (the_bank w).
Proof. apply screen_list_spec. Qed.

End Menu.

Lemma leaving_the_menu_witness :
  exists w',
    menu_turn parse_amount parse_digits
      (mkWorld [(3, py " 0 "); (3, py "1")] [] 2 bank_cent)
    = Returns false w'
    /\ stdin w' = [(3, py "1")]
    /\ the_bank w' = bank_cent
    /\ last (stdout w') = Some (Printed (newline +:+ "Goodbye!")).
Proof.
  destruct (leaving_the_menu parse_amount parse_digits) as (Hzero & _ & _).
  apply (Hzero (mkWorld [(3, py " 0 "); (3, py "1")] [] 2 bank_cent) 3 (py " 0 ")
           [(3, py "1")]);
    reflexivity.
Defined.

(** The session of the scenarios, from the menu: it ends with the
    farewell, Alice's account as scenario 4 leaves it. *)
Example session1_runs :
  exists w,
    main_menu parse_amount parse_digits session1 0 = Some (Returns tt w)
    /\ stdin w = []
    /\ get 1001 (the_bank w) = Some (mkAccount 1001 (py "Alice") 40 50 1 20)
    /\ _next (the_bank w) = 1002.
Proof. eexists. split; [vm_compute; reflexivity|]. repeat split. Qed.

(** What is typed at the amount prompts reaches the accounts as [float]
    reads it.  A deposit of 'nan' leaves a balance of NaN; a withdrawal
    of 'nan' leaves the balance and the counter NaN; with a limit of 1.2,
    withdrawals of 0.14 and 1.06 both return and leave the counter at
    1.2000000000000002. *)
Example sessions_with_floats :
  parse_amount (py "1.2") = Some 1.2%float
  /\ parse_amount (py "0.14") = Some 0.14%float
  /\ parse_amount (py "1.06") = Some 1.06%float
  /\ (exists w,
       main_menu parse_amount parse_digits session_nan_deposit 0
       = Some (Returns tt w)
       /\ get 1001 (the_bank w) = Some (mkAccount 1001 (py "Alice") nan 0 0 0))
  /\ (exists w,
       main_menu parse_amount parse_digits session_nan_withdraw 0
       = Some (Returns tt w)
       /\ get 1001 (the_bank w) = Some (mkAccount 1001 (py "Alice") nan 50 0 nan))
  /\ (exists w,
       main_menu parse_amount parse_digits session_limit 0
       = Some (Returns tt w)
       /\ get 1001 (the_bank w)
          = Some (mkAccount 1001 (py "Alice") (100 - 0.14 - 1.06) 1.2 0
                            1.2000000000000002)).
Proof.
  split; [reflexivity|]. split; [reflexivity|]. split; [reflexivity|].
  split; [|split]; eexists; (split; [vm_compute; reflexivity|]);
    vm_compute; reflexivity.
Qed.
